(** * Procurement analytics engine: [src/analysis/analyze_data.py]

    A shallow embedding of the on-demand calculation functions of the
    analysis module ([calculate_kpis], [calculate_sku_analysis],
    [filter_sku_analysis], [calculate_critical_suppliers],
    [calculate_price_volatility], [calculate_demand_forecast]) and of the
    JSON helper [to_json_safe_dict] of the API router.

    Conventions of the embedding.

    - A pandas [DataFrame] is a list of records, one per row, in row order.
      A missing value of an object column (ids, descriptions, dates) is
      [None].
    - A [float64] cell is a rational number or one of the three IEEE
      special values.  Finite arithmetic is exact (the rounding of binary64
      is not modelled, and neither is the sign of zero); the special values
      follow IEEE 754 as numpy applies it: no operation raises, [x / 0] is
      an infinity or NaN, every comparison with NaN is false.  The square
      root, which has no exact rational value in general, is rounded up on
      a grid of 2^-52.
    - pandas and statsmodels primitives ([groupby], [merge], [sort_values],
      [cumsum], [fillna], [nunique], the index handling of a fitted time
      series model) are written out as list functions with the library's
      default arguments, which are the ones the source uses. *)

From Stdlib Require Import List String Ascii Bool Arith ZArith QArith Qround Qabs Lia Lqa.
From Stdlib Require Import DecimalString Permutation Sorted.
Import ListNotations.

Local Open Scope string_scope.

(** ** float64 cells *)

Inductive float64 : Type :=
| Fin (q : Q)
| PInf
| NInf
| NaN.

Definition isnan (x : float64) : bool :=
  match x with NaN => true | _ => false end.

Definition isinf (x : float64) : bool :=
  match x with PInf | NInf => true | _ => false end.

Definition notna (x : float64) : bool := negb (isnan x).

Definition Qsign (q : Q) : comparison := (Qnum q ?= 0)%Z.

Definition fadd (x y : float64) : float64 :=
  match x, y with
  | NaN, _ | _, NaN => NaN
  | Fin a, Fin b => Fin (Qred (a + b)%Q)
  | PInf, NInf | NInf, PInf => NaN
  | PInf, _ | _, PInf => PInf
  | NInf, _ | _, NInf => NInf
  end.

Definition fsub (x y : float64) : float64 :=
  match x, y with
  | NaN, _ | _, NaN => NaN
  | Fin a, Fin b => Fin (Qred (a - b)%Q)
  | PInf, PInf | NInf, NInf => NaN
  | PInf, _ | _, NInf => PInf
  | NInf, _ | _, PInf => NInf
  end.

(** The infinity carrying the sign [s]; a zero sign gives NaN (inf * 0). *)
Definition inf_of_sign (s : comparison) : float64 :=
  match s with Gt => PInf | Lt => NInf | Eq => NaN end.

Definition flip (s : comparison) : comparison := CompOpp s.

Definition fmul (x y : float64) : float64 :=
  match x, y with
  | NaN, _ | _, NaN => NaN
  | Fin a, Fin b => Fin (Qred (a * b)%Q)
  | PInf, Fin b | Fin b, PInf => inf_of_sign (Qsign b)
  | NInf, Fin b | Fin b, NInf => inf_of_sign (flip (Qsign b))
  | PInf, PInf | NInf, NInf => PInf
  | PInf, NInf | NInf, PInf => NInf
  end.

(** numpy true division: a zero divisor gives an infinity of the sign of
    the dividend, or NaN for [0 / 0]; never an exception. *)
Definition fdiv (x y : float64) : float64 :=
  match x, y with
  | NaN, _ | _, NaN => NaN
  | Fin a, Fin b =>
      match Qsign b with
      | Eq => inf_of_sign (Qsign a)
      | _ => Fin (Qred (a / b)%Q)
      end
  | Fin _, (PInf | NInf) => Fin 0
  | (PInf | NInf), (PInf | NInf) => NaN
  | PInf, Fin b => match Qsign b with Lt => NInf | _ => PInf end
  | NInf, Fin b => match Qsign b with Lt => PInf | _ => NInf end
  end.

Definition fle (x y : float64) : bool :=
  match x, y with
  | NaN, _ | _, NaN => false
  | Fin a, Fin b => Qle_bool a b
  | NInf, _ | _, PInf => true
  | _, _ => false
  end.

Definition fge (x y : float64) : bool := fle y x.

Definition flt (x y : float64) : bool :=
  match x, y with
  | NaN, _ | _, NaN => false
  | _, _ => negb (fle y x)
  end.

Definition feqb (x y : float64) : bool :=
  match x, y with
  | Fin a, Fin b => Qeq_bool a b
  | PInf, PInf | NInf, NInf => true
  | _, _ => false
  end.

(** Square root of a non-negative rational, rounded up to a multiple of
    2^-52 / denominator: exact on squares of such multiples, zero only at
    zero. *)
Definition Qsqrt (q : Q) : Q :=
  Qred (Z.sqrt_up (Qnum q * Zpos (Qden q) * 2 ^ 104)%Z # (Qden q * 2 ^ 52)%positive).

Definition fsqrt (x : float64) : float64 :=
  match x with
  | Fin q => match Qsign q with Lt => NaN | _ => Fin (Qsqrt q) end
  | PInf => PInf
  | NInf | NaN => NaN
  end.

Definition of_nat (n : nat) : float64 := Fin (inject_Z (Z.of_nat n)).

(** ** Python string formatting of numbers *)

Definition digits_of_N (n : N) : string := NilZero.string_of_uint (N.to_uint n).

(** Groups a digit string by thousands, ["1234567"] to ["1,234,567"]. *)
Fixpoint group3_rev (ds : list ascii) (k : nat) : list ascii :=
  match ds with
  | [] => []
  | d :: ds' =>
      match k, ds' with
      | 2%nat, _ :: _ => d :: ","%char :: group3_rev ds' 0
      | _, _ => d :: group3_rev ds' (S k)
      end
  end.

Definition thousands (s : string) : string :=
  string_of_list_ascii (rev (group3_rev (rev (list_ascii_of_string s)) 0)).

(** [f"{n:,}"] for a non-negative integer. *)
Definition format_int_comma (n : nat) : string :=
  thousands (digits_of_N (N.of_nat n)).

(** Nearest integer, ties to even, of a non-negative rational. *)
Definition round_half_even (q : Q) : Z :=
  let fl := Qfloor q in
  let r := (q - inject_Z fl)%Q in
  match Qcompare r (1 # 2) with
  | Lt => fl
  | Gt => (fl + 1)%Z
  | Eq => if Z.even fl then fl else (fl + 1)%Z
  end.

Definition two_digits (n : Z) : string :=
  let s := digits_of_N (Z.to_N n) in
  if (n <? 10)%Z then "0" ++ s else s.

(** [f"{x:.2f}"] ([comma = false]) and [f"{x:,.2f}"] ([comma = true]). *)
Definition format_2f (comma : bool) (x : float64) : string :=
  match x with
  | NaN => "nan"
  | PInf => "inf"
  | NInf => "-inf"
  | Fin q =>
      let c := round_half_even (Qabs q * 100)%Q in
      let ip := digits_of_N (Z.to_N (c / 100)) in
      (match Qsign q with Lt => "-" | _ => "" end)
        ++ (if comma then thousands ip else ip)
        ++ "." ++ two_digits (c mod 100)
  end.

(** ** The Record Table *)

Record date : Type := mkDate { year : Z; month : Z; day : Z }.

(** One transaction line item; the columns the analysis functions read. *)
Record row : Type := mkRow {
  purchase_order_id : option string;
  product_id : option string;
  description : option string;
  supplier_id : option string;
  department : option string;
  created_date : option date;
  quantity : float64;
  unit_price : float64;
  net_value : float64
}.

Definition DataFrame : Type := list row.

(** ** pandas primitives *)

Definition omap {A B : Type} (f : A -> option B) (l : list A) : list B :=
  flat_map (fun a => match f a with Some b => [b] | None => [] end) l.

(** Sorting by insertion: [leb a b = true] keeps [a] before [b], and equal
    elements keep their order.  (pandas' default sort does not promise the
    order among equal keys; no property below depends on it.) *)
Fixpoint insert_sorted {A : Type} (leb : A -> A -> bool) (x : A) (l : list A)
  : list A :=
  match l with
  | [] => [x]
  | y :: l' => if leb x y then x :: l else y :: insert_sorted leb x l'
  end.

Definition sort_by {A : Type} (leb : A -> A -> bool) (l : list A) : list A :=
  fold_right (insert_sorted leb) [] l.

(** Order of [sort_values(col, ascending=False)]: larger first, NaN last. *)
Definition desc_leb (a b : float64) : bool :=
  if isnan b then true else if isnan a then false else fle b a.

Definition sort_values_desc {A : Type} (col : A -> float64) (l : list A)
  : list A :=
  sort_by (fun a b => desc_leb (col a) (col b)) l.

(** Group keys: a tuple of column values, as a list of strings. *)
Definition key : Type := list string.

Definition key_eq_dec : forall a b : key, {a = b} + {a <> b} :=
  list_eq_dec string_dec.

Fixpoint key_leb (a b : key) : bool :=
  match a, b with
  | [], _ => true
  | _ :: _, [] => false
  | x :: a', y :: b' =>
      match String.compare x y with
      | Lt => true
      | Gt => false
      | Eq => key_leb a' b'
      end
  end.

(** The key of a row under the grouping columns [cols]; [None] as soon as
    one of the key columns is missing. *)
Fixpoint key_of (cols : list (row -> option string)) (r : row) : option key :=
  match cols with
  | [] => Some []
  | c :: cs =>
      match c r, key_of cs r with
      | Some s, Some k => Some (s :: k)
      | _, _ => None
      end
  end.

Definition col (i : nat) (k : key) : string := nth i k "".

Section GroupBy.
Context {R K : Type}.
Variable K_eq_dec : forall a b : K, {a = b} + {a <> b}.
Variable K_leb : K -> K -> bool.

Definition has_key (keyf : R -> option K) (k : K) (r : R) : bool :=
  match keyf r with
  | Some k' => if K_eq_dec k' k then true else false
  | None => false
  end.

(** [df.groupby(keys)] with the defaults [sort=True, dropna=True]: the
    distinct keys in sorted order; rows with a missing key belong to no
    group. *)
Definition group_keys (keyf : R -> option K) (df : list R) : list K :=
  sort_by K_leb (nodup K_eq_dec (omap keyf df)).

Definition groupby (keyf : R -> option K) (df : list R)
  : list (K * list R) :=
  map (fun k => (k, filter (has_key keyf k) df)) (group_keys keyf df).
End GroupBy.

Definition groupby_cols (cols : list (row -> option string)) (df : DataFrame)
  : list (key * list row) :=
  groupby key_eq_dec key_leb (key_of cols) df.

Definition groupby_col (c : row -> option string) (df : DataFrame)
  : list (string * list row) :=
  groupby string_dec String.leb c df.

(** Aggregations; all of them skip NaN. *)
Definition dropna (xs : list float64) : list float64 := filter notna xs.

Definition sum_skipna (xs : list float64) : float64 :=
  fold_left fadd (dropna xs) (Fin 0).

Definition mean_skipna (xs : list float64) : float64 :=
  match List.length (dropna xs) with
  | O => NaN
  | n => fdiv (sum_skipna xs) (of_nat n)
  end.

Definition fmin2 (a b : float64) : float64 := if fle b a then b else a.

Definition min_skipna (xs : list float64) : float64 :=
  match dropna xs with
  | [] => NaN
  | x :: t => fold_left fmin2 t x
  end.

Definition ostring_eq_dec : forall a b : option string, {a = b} + {a <> b}.
Proof. decide equality. apply string_dec. Defined.

Definition nunique (xs : list (option string)) : nat :=
  List.length (nodup string_dec (omap (fun x => x) xs)).

(** Sample variance ([ddof = 1]) by the one-pass update of pandas'
    [group_var]. *)
Definition var_step (st : nat * float64 * float64) (v : float64)
  : nat * float64 * float64 :=
  let '(nobs, mean, m2) := st in
  let nobs' := S nobs in
  let mean' := fadd mean (fdiv (fsub v mean) (of_nat nobs')) in
  (nobs', mean', fadd m2 (fmul (fsub v mean') (fsub v mean))).

Definition var_skipna (xs : list float64) : float64 :=
  let '(nobs, _, m2) := fold_left var_step (dropna xs) (O, Fin 0, Fin 0) in
  if (nobs <=? 1)%nat then NaN else fdiv m2 (of_nat (nobs - 1)).

Definition std_skipna (xs : list float64) : float64 := fsqrt (var_skipna xs).

(** [Series.cumsum()]: a NaN entry stays NaN and is left out of the
    running sum. *)
Fixpoint cumsum_from (acc : float64) (xs : list float64) : list float64 :=
  match xs with
  | [] => []
  | x :: t =>
      if isnan x then NaN :: cumsum_from acc t
      else fadd acc x :: cumsum_from (fadd acc x) t
  end.

Definition cumsum (xs : list float64) : list float64 :=
  cumsum_from (Fin 0) xs.

Definition okey_eqb (a b : option string) : bool :=
  if ostring_eq_dec a b then true else false.

(** [pd.merge(left, right, on=k)], an inner join in the order of the left
    rows; as in pandas, a missing key matches a missing key. *)
Definition merge {A B : Type} (ka : A -> option string) (kb : B -> option string)
    (left : list A) (right : list B) : list (A * B) :=
  flat_map (fun a => map (pair a) (filter (fun b => okey_eqb (ka a) (kb b)) right))
           left.

Definition isin (s : string) (l : list string) : bool :=
  existsb (String.eqb s) l.

(** [drop_duplicates()], keeping first occurrences. *)
Definition drop_duplicates {A : Type} (dec : forall a b : A, {a = b} + {a <> b})
    (l : list A) : list A :=
  rev (nodup dec (rev l)).

Definition fillna0 (x : float64) : float64 := if isnan x then Fin 0 else x.

(** ** KPI Calculator: [calculate_kpis] *)

(** [df.groupby('product_id')['unit_price'].min().reset_index(name='min_price')] *)
Definition min_price_table (df : DataFrame) : list (string * float64) :=
  map (fun g => (fst g, min_skipna (map unit_price (snd g))))
      (groupby_col product_id df).

Definition saving_potential (df : DataFrame) : float64 :=
  let saving_potential_df := min_price_table df in
  let df_merged :=
    merge product_id (fun m => Some (fst m)) df saving_potential_df in
  sum_skipna
    (map (fun rm => fmul (fsub (unit_price (fst rm)) (snd (snd rm)))
                         (quantity (fst rm)))
         df_merged).

(** [df.groupby('product_id')['supplier_id'].nunique()] *)
Definition supplier_counts (df : DataFrame) : list (string * nat) :=
  map (fun g => (fst g, nunique (map supplier_id (snd g))))
      (groupby_col product_id df).

Definition fragmented_skus (df : DataFrame) : nat :=
  List.length (filter (fun c => (1 <? snd c)%nat) (supplier_counts df)).

(** [fragmented_skus / df['product_id'].nunique() * 100]; the dividend is a
    numpy integer, so the quotient is a numpy float division. *)
Definition fragmentation_rate (df : DataFrame) : float64 :=
  fmul (fdiv (of_nat (fragmented_skus df))
             (of_nat (nunique (map product_id df))))
       (Fin 100).

Definition calculate_kpis (df : DataFrame) : list (string * string) :=
  let total_spend := sum_skipna (map net_value df) in
  [ ("Total Spend", "$" ++ format_2f true total_spend);
    ("Potential Savings", "$" ++ format_2f true (saving_potential df));
    ("Total Purchase Orders",
      format_int_comma (nunique (map purchase_order_id df)));
    ("Total Active Suppliers",
      format_int_comma (nunique (map supplier_id df)));
    ("Fragmented SKUs", format_int_comma (fragmented_skus df));
    ("Fragmentation Rate (%)",
      format_2f false (fragmentation_rate df) ++ "%") ].

(** The value of the KPI labelled [name], if there is one. *)
Definition kpi_value (name : string) (kpis : list (string * string))
  : option string :=
  option_map snd (find (fun kv => String.eqb (fst kv) name) kpis).

(** ** SKU Analysis View: [calculate_sku_analysis], [filter_sku_analysis] *)

Record sku_row : Type := mkSku {
  sk_department : string;
  sk_product_id : string;
  sk_description : string;
  sk_supplier_id : string;
  quantity_purchased : float64;
  avg_price_paid : float64;
  best_available_price : float64;
  cost_above_best_price : float64
}.

(** [df.groupby('product_id')['unit_price'].min().reset_index(name='best_available_price')] *)
Definition best_prices_per_sku (df : DataFrame) : list (string * float64) :=
  min_price_table df.

Definition sku_groups (df : DataFrame) : list (key * list row) :=
  groupby_cols [department; product_id; description; supplier_id] df.

Definition calculate_sku_analysis (df : DataFrame) : list sku_row :=
  let sku_analysis :=
    map (fun g => (fst g,
                   (sum_skipna (map quantity (snd g)),
                    mean_skipna (map unit_price (snd g)))))
        (sku_groups df) in
  let merged :=
    merge (fun s => Some (col 1 (fst s))) (fun b => Some (fst b))
          sku_analysis (best_prices_per_sku df) in
  map (fun sb =>
         let '((k, (qty, avg)), (_, best)) := sb in
         mkSku (col 0 k) (col 1 k) (col 2 k) (col 3 k)
               qty avg best (fmul (fsub avg best) qty))
      merged.

(** Truth value of an optional list argument: [None] and [[]] are false. *)
Definition truthy (l : option (list string)) : bool :=
  match l with
  | Some (_ :: _) => true
  | _ => false
  end.

Definition members (l : option (list string)) : list string :=
  match l with Some xs => xs | None => [] end.

Definition filter_sku_analysis (df : list sku_row)
    (departments suppliers : option (list string)) (cost_threshold : float64)
  : list sku_row :=
  if negb (truthy departments) && negb (truthy suppliers)
     && feqb cost_threshold (Fin 0)
  then df
  else
    let filtered1 :=
      if truthy departments
      then filter (fun r => isin (sk_department r) (members departments)) df
      else df in
    let filtered2 :=
      if truthy suppliers
      then filter (fun r => isin (sk_supplier_id r) (members suppliers))
                  filtered1
      else filtered1 in
    filter (fun r => fge (cost_above_best_price r) cost_threshold) filtered2.

(** ** Risk Analyzer: [calculate_critical_suppliers] *)

Record sku_summary_row : Type := mkSummary {
  ss_product_id : string;
  ss_description : string;
  total_net_value : float64;
  supplier_count : nat;
  cum_spend_pct : float64
}.

Record risk_row : Type := mkRisk {
  rk_product_id : string;
  rk_description : string;
  rk_supplier_id : option string;
  rk_total_net_value : float64
}.

(** The aggregation of the first statement, sorted by spend descending;
    the cumulative column is still empty. *)
Definition sku_summary_sorted (df : DataFrame) : list sku_summary_row :=
  sort_values_desc total_net_value
    (map (fun g => mkSummary (col 0 (fst g)) (col 1 (fst g))
                     (sum_skipna (map net_value (snd g)))
                     (nunique (map supplier_id (snd g)))
                     NaN)
         (groupby_cols [product_id; description] df)).

(** [(cumsum / sum) * 100] over the sorted spend column. *)
Definition cum_spend_pcts (spend : list float64) : list float64 :=
  let total := sum_skipna spend in
  map (fun c => fmul (fdiv c total) (Fin 100)) (cumsum spend).

Definition sku_summary (df : DataFrame) : list sku_summary_row :=
  let sorted := sku_summary_sorted df in
  map (fun sc =>
         mkSummary (ss_product_id (fst sc)) (ss_description (fst sc))
                   (total_net_value (fst sc)) (supplier_count (fst sc))
                   (snd sc))
      (combine sorted (cum_spend_pcts (map total_net_value sorted))).

Definition top_spend_skus (ss : list sku_summary_row) : list string :=
  map ss_product_id (filter (fun s => fle (cum_spend_pct s) (Fin 80)) ss).

Definition critical_single_sourced_skus (ss : list sku_summary_row)
  : list sku_summary_row :=
  filter (fun s => isin (ss_product_id s) (top_spend_skus ss)
                   && (supplier_count s =? 1)%nat) ss.

Definition pair_eq_dec
  : forall a b : option string * option string, {a = b} + {a <> b}.
Proof. decide equality; apply ostring_eq_dec. Defined.

Definition supplier_info (df : DataFrame)
  : list (option string * option string) :=
  drop_duplicates pair_eq_dec (map (fun r => (product_id r, supplier_id r)) df).

Definition calculate_critical_suppliers (df : DataFrame) : list risk_row :=
  let critical := critical_single_sourced_skus (sku_summary df) in
  let critical_risk_suppliers :=
    merge (fun s => Some (ss_product_id s)) fst critical (supplier_info df) in
  sort_values_desc rk_total_net_value
    (map (fun sp => mkRisk (ss_product_id (fst sp)) (ss_description (fst sp))
                           (snd (snd sp)) (total_net_value (fst sp)))
         critical_risk_suppliers).

(** ** Volatility Analyzer: [calculate_price_volatility] *)

Record volatility_row : Type := mkVol {
  pv_product_id : string;
  pv_description : string;
  pv_mean : float64;
  pv_std : float64;
  CV_pct : float64
}.

Definition cv_pct (std mean : float64) : float64 :=
  fmul (fdiv std mean) (Fin 100).

Definition volatility_of_group (g : key * list row) : volatility_row :=
  let prices := map unit_price (snd g) in
  let m := mean_skipna prices in
  let s := std_skipna prices in
  mkVol (col 0 (fst g)) (col 1 (fst g)) m s (cv_pct s m).

Definition fillna0_row (v : volatility_row) : volatility_row :=
  mkVol (pv_product_id v) (pv_description v)
        (fillna0 (pv_mean v)) (fillna0 (pv_std v)) (fillna0 (CV_pct v)).

Definition calculate_price_volatility (df : DataFrame) : list volatility_row :=
  map fillna0_row
      (sort_values_desc CV_pct
         (map volatility_of_group (groupby_cols [product_id; description] df))).

(** ** JSON boundary: [to_json_safe_dict] of the API router *)

Inductive json : Type :=
| JNull
| JStr (s : string)
| JNum (x : float64).

(** [df.replace({np.nan: None, pd.NaT: None})] on one cell. *)
Definition json_of_float (x : float64) : json :=
  if isnan x then JNull else JNum x.

Definition json_of_ostring (s : option string) : json :=
  match s with Some v => JStr v | None => JNull end.

Definition to_json_safe_dict {A : Type} (columns : A -> list (string * json))
    (df : list A) : list (list (string * json)) :=
  map columns df.

Definition volatility_columns (v : volatility_row) : list (string * json) :=
  [ ("product_id", JStr (pv_product_id v));
    ("description", JStr (pv_description v));
    ("mean", json_of_float (pv_mean v));
    ("std", json_of_float (pv_std v));
    ("CV_%", json_of_float (CV_pct v)) ].

(** The response of [GET /risk/price-volatility]. *)
Definition get_price_volatility (df : DataFrame)
  : list (list (string * json)) :=
  to_json_safe_dict volatility_columns (calculate_price_volatility df).

(** ** Demand Forecaster: [calculate_demand_forecast] *)

(** Calendar months counted from year 0; [pd.Grouper(freq='M')] buckets a
    timestamp by this number and labels the bucket with the month's end. *)
Definition month_ordinal (d : date) : Z := (year d * 12 + (month d - 1))%Z.

Definition month_key : Type := (string * Z)%type.

Definition month_key_eq_dec : forall a b : month_key, {a = b} + {a <> b}.
Proof. decide equality; [apply Z.eq_dec | apply string_dec]. Defined.

Definition month_key_leb (a b : month_key) : bool :=
  match String.compare (fst a) (fst b) with
  | Lt => true
  | Gt => false
  | Eq => (snd a <=? snd b)%Z
  end.

Definition month_key_of (r : row) : option month_key :=
  match product_id r, created_date r with
  | Some p, Some d => Some (p, month_ordinal d)
  | _, _ => None
  end.

(** [Series.nlargest(n)]: NaN dropped, largest first, first occurrence
    first among equals. *)
Definition nlargest {A : Type} (n : nat) (l : list (A * float64))
  : list (A * float64) :=
  firstn n (sort_values_desc snd (filter (fun kv => notna (snd kv)) l)).

Definition top_5_skus_by_qty (df : DataFrame) : list string :=
  map fst
      (nlargest 5
         (map (fun g => (fst g, sum_skipna (map quantity (snd g))))
              (groupby_col product_id df))).

Definition in_top (top : list string) (r : row) : bool :=
  match product_id r with
  | Some p => isin p top
  | None => false
  end.

(** One row per (product, month) with the month's summed quantity. *)
Definition monthly_demand_ts (df : DataFrame) : list (month_key * float64) :=
  let monthly_demand := filter (in_top (top_5_skus_by_qty df)) df in
  map (fun g => (fst g, sum_skipna (map quantity (snd g))))
      (groupby month_key_eq_dec month_key_leb month_key_of monthly_demand).

(** The series of one product: (month, quantity), in month order. *)
Definition sku_history (df : DataFrame) (sku : string) : list (Z * float64) :=
  map (fun kv => (snd (fst kv), snd kv))
      (filter (fun kv => String.eqb (fst (fst kv)) sku) (monthly_demand_ts df)).

(** The index of a forecast: a month (labelled by its end date), or a
    row position when the fitted model carries no date frequency. *)
Inductive forecast_index : Type :=
| AtMonth (m : Z)
| AtPosition (n : nat).

Record forecast_row : Type := mkForecast {
  fc_product_id : string;
  Forecast_Date : forecast_index;
  Forecast_Quantity : float64
}.

Fixpoint constant_step (k : Z) (ms : list Z) : bool :=
  match ms with
  | a :: (b :: _) as t => (b - a =? k)%Z && constant_step k t
  | _ => true
  end.

(** The history of a product is a series indexed by month-end dates
    without a frequency.  statsmodels ([TimeSeriesModel._init_dates]) then
    asks pandas for [index.inferred_freq], which is defined for at least
    three dates a constant number of months apart and is that number of
    months. *)
Definition inferred_freq (ms : list Z) : option Z :=
  match ms with
  | a :: b :: _ :: _ =>
      if constant_step (b - a) ms then Some (b - a)%Z else None
  | _ => None
  end.

(** Index of [model.forecast(steps)].  With a frequency the forecast is
    indexed by the next periods after the last date.  Without one,
    statsmodels warns that the date index "has no associated frequency
    information and so will be ignored when e.g. forecasting", models the
    series on the positions 0 .. nobs-1, and indexes the forecast by the
    positions nobs, nobs+1, ...; [reset_index()] then puts these integers
    in the column the source names [Forecast_Date]. *)
Definition forecast_index_of (ms : list Z) (steps : nat) : list forecast_index :=
  match inferred_freq ms with
  | Some k => map (fun i => AtMonth (last ms 0 + Z.of_nat i * k)%Z) (seq 1 steps)
  | None => map (fun i => AtPosition (List.length ms + i)) (seq 0 steps)
  end.

Section Forecast.
(** The parameter estimation of [SimpleExpSmoothing(...).fit()]: the
    smoothing level and the initial level it settles on; a numerical
    optimisation, left open. *)
Variable fit : list float64 -> float64 * float64.

(** Level recursion of simple exponential smoothing. *)
Definition ses_level (alpha l0 : float64) (ys : list float64) : float64 :=
  fold_left (fun l y => fadd (fmul alpha y) (fmul (fsub (Fin 1) alpha) l))
            ys l0.

(** A level-only model forecasts its last level at every horizon. *)
Definition ses_forecast (ys : list float64) (steps : nat) : list float64 :=
  let '(alpha, l0) := fit ys in
  repeat (ses_level alpha l0 ys) steps.

Definition sku_forecast (sku : string) (sku_hist : list (Z * float64))
  : list forecast_row :=
  if (2 <? List.length sku_hist)%nat then
    map (fun iv => mkForecast sku (fst iv) (snd iv))
        (combine (forecast_index_of (map fst sku_hist) 3)
                 (ses_forecast (map snd sku_hist) 3))
  else [].

Definition calculate_demand_forecast (df : DataFrame) : list forecast_row :=
  flat_map (fun sku => sku_forecast sku (sku_history df sku))
           (top_5_skus_by_qty df).
End Forecast.

(** ** Statements and fixtures used by the properties below *)

(** A complete line item dated on the first of month [m] of year [y]. *)
Definition line_item (po p d s dep : string) (y m : Z)
    (qty price net : float64) : row :=
  mkRow (Some po) (Some p) (Some d) (Some s) (Some dep)
        (Some (mkDate y m 1)) qty price net.

(** A line item whose product id failed to load. *)
Definition line_without_product : row :=
  mkRow (Some "PO1") None (Some "Widget") (Some "S1") (Some "D1")
        (Some (mkDate 2024 1 1)) (Fin 1) (Fin 10) (Fin 10).

(** A line item without a department. *)
Definition line_without_department : row :=
  mkRow (Some "PO1") (Some "P1") (Some "Widget") (Some "S1") None
        (Some (mkDate 2024 1 1)) (Fin 1) (Fin 10) (Fin 10).

(** Every row of the table lies in some group of the grouped result. *)
Definition null_keys_kept (cols : list (row -> option string)) (df : DataFrame)
  : Prop :=
  forall r, In r df -> exists g, In g (groupby_cols cols df) /\ In r (snd g).

(** A line item whose unit price failed to parse. *)
Definition line_without_price : row :=
  line_item "PO1" "P1" "Widget" "S1" "D1" 2024 1 (Fin 1) NaN (Fin 10).

Definition sku_table_with_missing_cost : list sku_row :=
  calculate_sku_analysis [line_without_price].

(** Potential Savings as the specification words it: for every row, its
    unit price minus the minimum unit price observed anywhere in the table
    for that row's product id, times its quantity, summed over all rows
    (sums leave missing terms out). *)
Definition same_product (r r' : row) : bool :=
  okey_eqb (product_id r') (product_id r).

Definition min_price_observed (df : DataFrame) (r : row) : float64 :=
  min_skipna (map unit_price (filter (same_product r) df)).

Definition overpayment (df : DataFrame) (r : row) : float64 :=
  fmul (fsub (unit_price r) (min_price_observed df r)) (quantity r).

Definition potential_savings_spec (df : DataFrame) : float64 :=
  sum_skipna (map (overpayment df) df).

Definition has_product (r : row) : bool :=
  match product_id r with Some _ => true | None => false end.

(** Product P1 bought at $10 and $20, quantity 1 each, from two suppliers. *)
Definition two_supplier_table : DataFrame :=
  [ line_item "PO1" "P1" "Widget" "S1" "D1" 2024 1 (Fin 1) (Fin 10) (Fin 10);
    line_item "PO2" "P1" "Widget" "S2" "D1" 2024 2 (Fin 1) (Fin 20) (Fin 20) ].

(** ** Auxiliary notions for the numeric properties *)


Definition finite_or_nan (x : float64) : Prop :=
  match x with Fin _ | NaN => True | _ => False end.


Definition nonneg_or_nan (x : float64) : Prop :=
  match x with Fin q => (0 <= q)%Q | NaN => True | _ => False end.

(** The finite entries of a column. *)
Definition fin_values (xs : list float64) : list Q :=
  omap (fun x => match x with Fin q => Some q | _ => None end) xs.

(** The running sum as [fadd] computes it on finite values. *)
Definition fin_sum (qs : list Q) (a : Q) : Q :=
  fold_left (fun s q => Qred (s + q)%Q) qs a.

Definition Qsum (qs : list Q) : Q := fold_right Qplus 0%Q qs.

Definition Qn (n : nat) : Q := inject_Z (Z.of_nat n).









(** Product P1, one supplier, exactly 80% of the spend. *)
Definition eighty_percent_table : DataFrame :=
  [ line_item "PO1" "P1" "Widget" "S1" "D1" 2024 1 (Fin 8) (Fin 10) (Fin 80);
    line_item "PO2" "P2" "Gadget" "S2" "D1" 2024 2 (Fin 2) (Fin 10) (Fin 20) ].



(** The prices of a group hold exactly one distinct value (missing
    prices are not values). *)
Definition single_price (xs : list float64) : Prop :=
  exists x, In x xs /\ isnan x = false
            /\ forall y, In y xs -> isnan y = false -> feqb y x = true.

(** The volatility invariant as the specification states it. *)
Definition cv_never_negative (df : DataFrame) : Prop :=
  forall v, In v (calculate_price_volatility df) ->
            fle (Fin 0) (CV_pct v) = true.

(** Product P1 credited twice, at unit prices -10 and -20. *)
Definition credited_prices_table : DataFrame :=
  [ line_item "PO1" "P1" "Widget" "S1" "D1" 2024 1
              (Fin 1) (Fin (-10)) (Fin (-10));
    line_item "PO2" "P1" "Widget" "S1" "D1" 2024 2
              (Fin 1) (Fin (-20)) (Fin (-20)) ].

(** Product P1 at unit prices -5 and 5: mean exactly zero, deviation not. *)
Definition zero_mean_table : DataFrame :=
  [ line_item "PO1" "P1" "Widget" "S1" "D1" 2024 1 (Fin 1) (Fin (-5)) (Fin (-5));
    line_item "PO2" "P1" "Widget" "S1" "D1" 2024 2 (Fin 1) (Fin 5) (Fin 5) ].

(** Product P1 bought three times at the same price. *)
Definition steady_price_table : DataFrame :=
  [ line_item "PO1" "P1" "Widget" "S1" "D1" 2024 1 (Fin 1) (Fin 7) (Fin 7);
    line_item "PO2" "P1" "Widget" "S2" "D1" 2024 2 (Fin 2) (Fin 7) (Fin 14);
    line_item "PO3" "P1" "Widget" "S1" "D1" 2024 3 (Fin 1) (Fin 7) (Fin 7) ].

(** The forecast rows of one product in the forecaster's output. *)
Definition forecast_rows_of (fit : list float64 -> float64 * float64)
    (df : DataFrame) (sku : string) : list forecast_row :=
  filter (fun r => String.eqb (fc_product_id r) sku)
         (calculate_demand_forecast fit df).

(** The three calendar months that follow month [m]. *)
Definition next_three_months (m : Z) : list forecast_index :=
  [AtMonth (m + 1); AtMonth (m + 2); AtMonth (m + 3)].

(** The forecaster property as the specification states it. *)
Definition forecast_months_follow (fit : list float64 -> float64 * float64)
    (df : DataFrame) : Prop :=
  forall sku,
    In sku (top_5_skus_by_qty df) ->
    (List.length (sku_history df sku) = 2%nat ->
     forecast_rows_of fit df sku = [])
    /\ ((3 <= List.length (sku_history df sku))%nat ->
        map Forecast_Date (forecast_rows_of fit df sku)
        = next_three_months (last (map fst (sku_history df sku)) 0%Z)).

(** Product P1 bought in January, February and April 2024. *)
Definition gapped_history_table : DataFrame :=
  [ line_item "PO1" "P1" "Widget" "S1" "D1" 2024 1 (Fin 10) (Fin 5) (Fin 50);
    line_item "PO2" "P1" "Widget" "S1" "D1" 2024 2 (Fin 12) (Fin 5) (Fin 60);
    line_item "PO3" "P1" "Widget" "S1" "D1" 2024 4 (Fin 11) (Fin 5) (Fin 55) ].

(** Product P1 bought in January, February and March 2024; product P2 in
    January and February only. *)
Definition monthly_history_table : DataFrame :=
  [ line_item "PO1" "P1" "Widget" "S1" "D1" 2024 1 (Fin 10) (Fin 5) (Fin 50);
    line_item "PO2" "P1" "Widget" "S1" "D1" 2024 2 (Fin 12) (Fin 5) (Fin 60);
    line_item "PO3" "P1" "Widget" "S1" "D1" 2024 3 (Fin 11) (Fin 5) (Fin 55);
    line_item "PO4" "P2" "Gadget" "S2" "D1" 2024 1 (Fin 1) (Fin 5) (Fin 5);
    line_item "PO5" "P2" "Gadget" "S2" "D1" 2024 2 (Fin 1) (Fin 5) (Fin 5) ].

(** ** API router: the on-demand endpoints of [purchase_orders.py] *)

(** [MASTER_DF.groupby('department')['net_value'].sum().reset_index()] *)
Definition dept_spend (df : DataFrame) : list (string * float64) :=
  map (fun g => (fst g, sum_skipna (map net_value (snd g))))
      (groupby_col department df).

Definition dept_spend_columns (d : string * float64) : list (string * json) :=
  [ ("department", JStr (fst d)); ("net_value", json_of_float (snd d)) ].

(** The response of [GET /charts/department-spend]. *)
Definition get_department_spend (df : DataFrame)
  : list (list (string * json)) :=
  to_json_safe_dict dept_spend_columns (dept_spend df).

(** [MASTER_DF.groupby(['product_id', 'description'])['net_value'].sum()
    .nlargest(10).reset_index()] *)
Definition top_skus (df : DataFrame) : list (key * float64) :=
  nlargest 10
    (map (fun g => (fst g, sum_skipna (map net_value (snd g))))
         (groupby_cols [product_id; description] df)).

Definition top_skus_columns (t : key * float64) : list (string * json) :=
  [ ("product_id", JStr (col 0 (fst t)));
    ("description", JStr (col 1 (fst t)));
    ("net_value", json_of_float (snd t)) ].

(** The response of [GET /tables/top-skus]. *)
Definition get_top_skus (df : DataFrame) : list (list (string * json)) :=
  to_json_safe_dict top_skus_columns (top_skus df).

(** [GET /tables/sku-analysis]: the threshold is an integer query
    parameter, default 0. *)
Definition sku_columns (s : sku_row) : list (string * json) :=
  [ ("department", JStr (sk_department s));
    ("product_id", JStr (sk_product_id s));
    ("description", JStr (sk_description s));
    ("supplier_id", JStr (sk_supplier_id s));
    ("quantity_purchased", json_of_float (quantity_purchased s));
    ("avg_price_paid", json_of_float (avg_price_paid s));
    ("best_available_price", json_of_float (best_available_price s));
    ("cost_above_best_price", json_of_float (cost_above_best_price s)) ].

Definition get_sku_analysis_table (df : DataFrame)
    (departments suppliers : option (list string)) (cost_threshold : Z)
  : list (list (string * json)) :=
  let sku_analysis_df := calculate_sku_analysis df in
  let filtered_df :=
    filter_sku_analysis sku_analysis_df departments suppliers
                        (Fin (inject_Z cost_threshold)) in
  to_json_safe_dict sku_columns filtered_df.

Definition risk_columns (r : risk_row) : list (string * json) :=
  [ ("product_id", JStr (rk_product_id r));
    ("description", JStr (rk_description r));
    ("supplier_id", json_of_ostring (rk_supplier_id r));
    ("total_net_value", json_of_float (rk_total_net_value r)) ].

(** The response of [GET /risk/critical-suppliers]. *)
Definition get_critical_suppliers (df : DataFrame)
  : list (list (string * json)) :=
  to_json_safe_dict risk_columns (calculate_critical_suppliers df).

(** [MASTER_DF['department'].unique().tolist()] and
    [MASTER_DF['supplier_id'].unique().tolist()]: the values in order of
    first appearance, a missing value included. *)
Definition get_department_filters (df : DataFrame) : list (option string) :=
  drop_duplicates ostring_eq_dec (map department df).

Definition get_supplier_filters (df : DataFrame) : list (option string) :=
  drop_duplicates ostring_eq_dec (map supplier_id df).

(** *** Recommendations: [get_recommendations] *)

(** [Series.idxmin()] on the prices of one group: the first row holding
    the smallest price, missing prices skipped; no row when every price is
    missing. *)
Fixpoint idxmin_from (best : row) (rs : list row) : row :=
  match rs with
  | [] => best
  | r :: t =>
      if isnan (unit_price r) then idxmin_from best t
      else if flt (unit_price r) (unit_price best) then idxmin_from r t
      else idxmin_from best t
  end.

Definition idxmin (rs : list row) : option row :=
  match filter (fun r => notna (unit_price r)) rs with
  | [] => None
  | r :: t => Some (idxmin_from r t)
  end.

Record best_supplier_row : Type := mkBest {
  bs_product_id : string;
  Recommended_Supplier : option string;
  Best_Price : float64
}.

Record recommendation_row : Type := mkRec {
  rc_product_id : string;
  rc_Recommended_Supplier : option string;
  rc_Best_Price : float64;
  avg_unit_price : float64;
  total_quantity : float64;
  Estimated_Saving : float64
}.

(** All the values of a list of options, or [None] if one is missing. *)
Fixpoint sequence {A : Type} (l : list (option A)) : option (list A) :=
  match l with
  | [] => Some []
  | None :: _ => None
  | Some a :: t =>
      match sequence t with
      | Some t' => Some (a :: t')
      | None => None
      end
  end.

(** [MASTER_DF.loc[MASTER_DF.groupby('product_id')['unit_price'].idxmin()]]:
    one row per product, in product order.  For a product whose prices
    are all missing [idxmin] has no label to give and the lookup by label
    raises; the result is then [None]. *)
Definition best_suppliers (df : DataFrame) : option (list best_supplier_row) :=
  sequence
    (map (fun g =>
            option_map
              (fun r => mkBest (fst g) (supplier_id r) (unit_price r))
              (idxmin (snd g)))
         (groupby_col product_id df)).

(** [MASTER_DF.groupby('product_id').agg(avg_unit_price=('unit_price',
    'mean'), total_quantity=('quantity', 'sum')).reset_index()] *)
Definition avg_prices (df : DataFrame) : list (string * (float64 * float64)) :=
  map (fun g => (fst g, (mean_skipna (map unit_price (snd g)),
                         sum_skipna (map quantity (snd g)))))
      (groupby_col product_id df).

(** The merged table with its [Estimated Saving] column, sorted by it in
    descending order, first ten rows. *)
Definition recommendations (df : DataFrame) : option (list recommendation_row) :=
  match best_suppliers df with
  | None => None
  | Some best =>
      let merged :=
        merge (fun b => Some (bs_product_id b)) (fun a => Some (fst a))
              best (avg_prices df) in
      Some (firstn 10
              (sort_values_desc Estimated_Saving
                 (map (fun ba =>
                         let '(b, (_, (avg, qty))) := ba in
                         mkRec (bs_product_id b) (Recommended_Supplier b)
                               (Best_Price b) avg qty
                               (fmul (fsub avg (Best_Price b)) qty))
                      merged)))
  end.

Definition recommendation_columns (r : recommendation_row)
  : list (string * json) :=
  [ ("product_id", JStr (rc_product_id r));
    ("Recommended Supplier", json_of_ostring (rc_Recommended_Supplier r));
    ("Best Price", json_of_float (rc_Best_Price r));
    ("avg_unit_price", json_of_float (avg_unit_price r));
    ("total_quantity", json_of_float (total_quantity r));
    ("Estimated Saving", json_of_float (Estimated_Saving r)) ].

(** The response of [GET /recommendations]; [None] when the request
    fails with the lookup error. *)
Definition get_recommendations (df : DataFrame)
  : option (list (list (string * json))) :=
  option_map (to_json_safe_dict recommendation_columns) (recommendations df).

(** ** Further notions used by the properties below *)

(** The key columns of a row of the SKU analysis. *)
Definition sku_key (s : sku_row) : key :=
  [sk_department s; sk_product_id s; sk_description s; sk_supplier_id s].

Definition sku_cols : list (row -> option string) :=
  [department; product_id; description; supplier_id].

(** [b] comes no earlier than [a] in a descending sort: it is missing,
    or it is at most [a]. *)
Definition desc_ordered (a b : float64) : Prop := desc_leb a b = true.

Definition zero_or_nan (x : float64) : Prop :=
  match x with Fin q => (q == 0)%Q | NaN => True | _ => False end.

(** A table without spend: every net value is zero or missing. *)
Definition no_spend_table : DataFrame :=
  [ line_item "PO1" "P1" "Widget" "S1" "D1" 2024 1 (Fin 1) (Fin 10) (Fin 0);
    line_item "PO2" "P2" "Gadget" "S2" "D1" 2024 2 (Fin 1) (Fin 10) NaN ].



(** Three products, the second one without any parsed price. *)
Definition unpriced_product_table : DataFrame :=
  [ line_item "PO1" "P1" "Widget" "S1" "D1" 2024 1 (Fin 1) (Fin 10) (Fin 10);
    line_item "PO2" "P2" "Gadget" "S2" "D1" 2024 2 (Fin 1) NaN (Fin 10);
    line_item "PO3" "P3" "Gizmo" "S1" "D2" 2024 3 (Fin 2) (Fin 4) (Fin 8) ].

(** Product P1 bought from S1 at 12 and from S2 at 10 and 10. *)
Definition two_price_table : DataFrame :=
  [ line_item "PO1" "P1" "Widget" "S1" "D1" 2024 1 (Fin 1) (Fin 12) (Fin 12);
    line_item "PO2" "P1" "Widget" "S2" "D1" 2024 2 (Fin 2) (Fin 10) (Fin 20);
    line_item "PO3" "P1" "Widget" "S3" "D1" 2024 3 (Fin 1) (Fin 10) (Fin 10) ].

(** Product P1 with no parsed unit price on any of its two line items. *)
Definition line_pair_without_prices : DataFrame :=
  [ line_item "PO1" "P1" "Widget" "S1" "D1" 2024 1 (Fin 1) NaN (Fin 10);
    line_item "PO2" "P1" "Widget" "S2" "D1" 2024 2 (Fin 1) NaN (Fin 10) ].

(** * Properties *)

(** ** Formatting *)

Example format_2f_30 : format_2f true (Fin 30) = "30.00".
Proof. reflexivity. Qed.

Example format_2f_big : format_2f true (Fin (24691357 # 20)) = "1,234,567.85".
Proof. vm_compute. reflexivity. Qed.

Example format_2f_nan : format_2f false NaN = "nan".
Proof. reflexivity. Qed.

(** ** Lists, sorting and grouping *)

Lemma omap_In {A B : Type} (f : A -> option B) (l : list A) (b : B) :
  In b (omap f l) <-> exists a, In a l /\ f a = Some b.
Proof.
  unfold omap. rewrite in_flat_map. split.
  - intros [a [Ha Hb]]. exists a. split; [exact Ha|].
    destruct (f a) as [b'|]; simpl in Hb; [|contradiction].
    destruct Hb as [->|[]]. reflexivity.
  - intros [a [Ha Hf]]. exists a. split; [exact Ha|].
    rewrite Hf. left. reflexivity.
Qed.

Lemma omap_nil_inv {A B : Type} (f : A -> option B) (l : list A) :
  omap f l = [] -> forall a, In a l -> f a = None.
Proof.
  intros H a Ha. destruct (f a) as [b|] eqn:E; [|reflexivity].
  assert (In b (omap f l)) as Hin by (apply omap_In; eauto).
  rewrite H in Hin. destruct Hin.
Qed.

Lemma omap_all_none {A B : Type} (f : A -> option B) (l : list A) :
  (forall a, In a l -> f a = None) -> omap f l = [].
Proof.
  induction l as [|a l IH]; intros H; [reflexivity|].
  unfold omap in *. simpl. rewrite (H a (or_introl eq_refl)). simpl.
  apply IH. intros x Hx. apply H. right. exact Hx.
Qed.

Lemma omap_id_map {A B : Type} (f : A -> option B) (l : list A) :
  omap (fun x => x) (map f l) = omap f l.
Proof.
  induction l as [|a l IH]; [reflexivity|].
  unfold omap in *. simpl. rewrite IH. reflexivity.
Qed.

Lemma nodup_nil_inv {A : Type} (dec : forall a b : A, {a = b} + {a <> b})
    (l : list A) :
  nodup dec l = [] -> l = [].
Proof.
  destruct l as [|a l]; [reflexivity|]. intros H.
  assert (In a (nodup dec (a :: l))) as Hin
      by (apply nodup_In; left; reflexivity).
  rewrite H in Hin. destruct Hin.
Qed.

Lemma filter_none {A : Type} (f : A -> bool) (l : list A) :
  (forall a, In a l -> f a = false) -> filter f l = [].
Proof.
  intros H. rewrite (filter_ext_in f (fun _ => false) l H).
  apply filter_false.
Qed.

Section Sorting.
Context {A : Type}.
Variable leb : A -> A -> bool.

Lemma insert_sorted_perm (x : A) (l : list A) :
  Permutation (insert_sorted leb x l) (x :: l).
Proof.
  induction l as [|y l IH]; simpl; [apply Permutation_refl|].
  destruct (leb x y); [apply Permutation_refl|].
  eapply Permutation_trans; [apply perm_skip, IH | apply perm_swap].
Qed.

Lemma sort_by_perm (l : list A) : Permutation (sort_by leb l) l.
Proof.
  induction l as [|x l IH]; simpl; [constructor|].
  eapply Permutation_trans; [apply insert_sorted_perm|].
  apply perm_skip, IH.
Qed.

Lemma sort_by_In (l : list A) (x : A) : In x (sort_by leb l) <-> In x l.
Proof.
  split; apply Permutation_in;
    [apply sort_by_perm | apply Permutation_sym, sort_by_perm].
Qed.

(** The head of a sorted list precedes the rest, for a total and
    transitive order. *)
Hypothesis leb_total : forall a b, leb a b = false -> leb b a = true.
Hypothesis leb_trans :
  forall a b c, leb a b = true -> leb b c = true -> leb a c = true.


End Sorting.

Section GroupByFacts.
Context {R K : Type}.
Variable K_eq_dec : forall a b : K, {a = b} + {a <> b}.
Variable K_leb : K -> K -> bool.
Variable keyf : R -> option K.

Lemma has_key_true (k : K) (r : R) :
  has_key K_eq_dec keyf k r = true <-> keyf r = Some k.
Proof.
  unfold has_key. destruct (keyf r) as [k'|]; [|split; discriminate].
  destruct (K_eq_dec k' k) as [->|Hne]; split; intros H;
    try reflexivity; try discriminate.
  inversion H. contradiction.
Qed.

Lemma group_keys_In (df : list R) (k : K) :
  In k (group_keys K_eq_dec K_leb keyf df)
  <-> exists r, In r df /\ keyf r = Some k.
Proof.
  unfold group_keys. rewrite sort_by_In, nodup_In. apply omap_In.
Qed.

Lemma group_keys_NoDup (df : list R) :
  NoDup (group_keys K_eq_dec K_leb keyf df).
Proof.
  unfold group_keys.
  eapply Permutation_NoDup;
    [apply Permutation_sym, sort_by_perm | apply NoDup_nodup].
Qed.

Lemma groupby_In (df : list R) (g : K * list R) :
  In g (groupby K_eq_dec K_leb keyf df)
  <-> In (fst g) (group_keys K_eq_dec K_leb keyf df)
      /\ snd g = filter (has_key K_eq_dec keyf (fst g)) df.
Proof.
  unfold groupby. rewrite in_map_iff. split.
  - intros [k [<- Hk]]. simpl. auto.
  - intros [Hk Hs]. exists (fst g). split; [|exact Hk].
    destruct g as [k rs]. simpl in *. rewrite Hs. reflexivity.
Qed.

Lemma groupby_keys (df : list R) :
  map fst (groupby K_eq_dec K_leb keyf df)
  = group_keys K_eq_dec K_leb keyf df.
Proof.
  unfold groupby. rewrite map_map. simpl. apply map_id.
Qed.

(** A row is a member of a group exactly when its key is complete and
    is the key of that group. *)
Lemma groupby_member (df : list R) (g : K * list R) (r : R) :
  In g (groupby K_eq_dec K_leb keyf df) ->
  (In r (snd g) <-> In r df /\ keyf r = Some (fst g)).
Proof.
  intros Hg. apply groupby_In in Hg. destruct Hg as [_ ->].
  rewrite filter_In, has_key_true. reflexivity.
Qed.

Lemma groupby_row_has_group (df : list R) (r : R) (k : K) :
  In r df -> keyf r = Some k ->
  In (k, filter (has_key K_eq_dec keyf k) df)
     (groupby K_eq_dec K_leb keyf df).
Proof.
  intros Hr Hk. apply groupby_In. simpl. split; [|reflexivity].
  apply group_keys_In. eauto.
Qed.

Lemma groupby_no_keys (df : list R) :
  (forall r, In r df -> keyf r = None) ->
  groupby K_eq_dec K_leb keyf df = [].
Proof.
  intros H. unfold groupby, group_keys.
  rewrite (omap_all_none keyf df H). reflexivity.
Qed.
End GroupByFacts.

(** ** Sums, means and minima of finite columns *)

Lemma dropna_fin_values (xs : list float64) :
  Forall finite_or_nan xs -> dropna xs = map Fin (fin_values xs).
Proof.
  induction 1 as [|x xs Hx _ IH]; [reflexivity|].
  unfold dropna, fin_values, omap in *. simpl.
  destruct x; simpl in *; try contradiction; rewrite IH; reflexivity.
Qed.

Lemma fin_values_In (xs : list float64) (q : Q) :
  In q (fin_values xs) <-> In (Fin q) xs.
Proof.
  unfold fin_values. rewrite omap_In. split.
  - intros [x [Hx E]]. destruct x; try discriminate.
    inversion E; subst. exact Hx.
  - intros H. exists (Fin q). auto.
Qed.

Lemma fold_fadd_fins (qs : list Q) (a : Q) :
  fold_left fadd (map Fin qs) (Fin a) = Fin (fin_sum qs a).
Proof.
  revert a. induction qs as [|q qs IH]; intros a; [reflexivity|].
  simpl. apply IH.
Qed.

Lemma fin_sum_Qsum (qs : list Q) (a : Q) : (fin_sum qs a == a + Qsum qs)%Q.
Proof.
  revert a. induction qs as [|q qs IH]; intros a.
  - unfold fin_sum, Qsum. simpl. ring.
  - change (fin_sum (q :: qs) a) with (fin_sum qs (Qred (a + q))).
    change (Qsum (q :: qs)) with (q + Qsum qs)%Q.
    rewrite IH, Qred_correct. ring.
Qed.

Lemma sum_skipna_fins (xs : list float64) :
  Forall finite_or_nan xs ->
  sum_skipna xs = Fin (fin_sum (fin_values xs) 0).
Proof.
  intros H. unfold sum_skipna. rewrite (dropna_fin_values xs H).
  apply fold_fadd_fins.
Qed.

Lemma Qn_succ (n : nat) : (Qn (S n) == Qn n + 1)%Q.
Proof.
  unfold Qn. rewrite Nat2Z.inj_succ. unfold Z.succ.
  rewrite inject_Z_plus. reflexivity.
Qed.

Lemma Qn_pos (n : nat) : (0 < Qn (S n))%Q.
Proof.
  unfold Qn, Qlt. simpl. lia.
Qed.

Lemma Qsign_Qn_succ (n : nat) : Qsign (Qn (S n)) = Gt.
Proof. reflexivity. Qed.

Lemma Qsum_lower (qs : list Q) (m : Q) :
  (forall q, In q qs -> (m <= q)%Q) ->
  (Qn (List.length qs) * m <= Qsum qs)%Q.
Proof.
  induction qs as [|q qs IH]; intros H.
  - simpl. unfold Qn. simpl. rewrite Qmult_0_l. apply Qle_refl.
  - change (List.length (q :: qs)) with (S (List.length qs)).
    rewrite Qn_succ. simpl.
    assert (m <= q)%Q as Hq by (apply H; left; reflexivity).
    assert (Qn (List.length qs) * m <= Qsum qs)%Q as Hs
        by (apply IH; intros x Hx; apply H; right; exact Hx).
    lra.
Qed.


(** The mean of a column with a finite entry is finite and is at least
    any lower bound of the finite entries. *)
Lemma mean_skipna_lower (xs : list float64) (m : Q) :
  Forall finite_or_nan xs ->
  fin_values xs <> [] ->
  (forall q, In q (fin_values xs) -> (m <= q)%Q) ->
  exists a, mean_skipna xs = Fin a /\ (m <= a)%Q.
Proof.
  intros Hfin Hne Hlow. unfold mean_skipna.
  rewrite (sum_skipna_fins xs Hfin), (dropna_fin_values xs Hfin).
  rewrite length_map.
  destruct (fin_values xs) as [|q qs] eqn:E; [contradiction|].
  change (List.length (q :: qs)) with (S (List.length qs)).
  unfold fdiv, of_nat. fold (Qn (S (List.length qs))).
  rewrite Qsign_Qn_succ. eexists. split; [reflexivity|].
  rewrite Qred_correct, fin_sum_Qsum.
  apply Qle_shift_div_l; [apply Qn_pos|].
  pose proof (Qsum_lower (q :: qs) m Hlow) as HS.
  change (List.length (q :: qs)) with (S (List.length qs)) in HS.
  lra.
Qed.





(** ** KPI Calculator *)

Lemma nunique_zero_all_missing {A : Type} (f : A -> option string) (l : list A) :
  nunique (map f l) = O -> forall a, In a l -> f a = None.
Proof.
  unfold nunique. rewrite omap_id_map. intros H.
  apply length_zero_iff_nil, nodup_nil_inv in H.
  apply omap_nil_inv. exact H.
Qed.

Lemma fragmented_skus_no_products (df : DataFrame) :
  nunique (map product_id df) = O -> fragmented_skus df = O.
Proof.
  intros H. unfold fragmented_skus, supplier_counts, groupby_col.
  rewrite groupby_no_keys; [reflexivity|].
  apply nunique_zero_all_missing. exact H.
Qed.

Lemma fragmentation_rate_no_products (df : DataFrame) :
  nunique (map product_id df) = O -> fragmentation_rate df = NaN.
Proof.
  intros H. unfold fragmentation_rate.
  rewrite (fragmented_skus_no_products df H), H. reflexivity.
Qed.

(** C2. When the table has no distinct product id, [calculate_kpis]
    returns its six KPIs and the Fragmentation Rate is the formatted NaN,
    ["nan%"]: the division 0 / 0 is a numpy division, which yields NaN and
    does not raise. *)
Theorem calculate_kpis_no_products (df : DataFrame) :
  nunique (map product_id df) = O ->
  exists total savings orders suppliers,
    calculate_kpis df =
      [ ("Total Spend", total);
        ("Potential Savings", savings);
        ("Total Purchase Orders", orders);
        ("Total Active Suppliers", suppliers);
        ("Fragmented SKUs", "0");
        ("Fragmentation Rate (%)", "nan%") ]
    /\ kpi_value "Fragmentation Rate (%)" (calculate_kpis df) = Some "nan%".
Proof.
  intros H. unfold calculate_kpis, kpi_value.
  rewrite (fragmentation_rate_no_products df H).
  rewrite (fragmented_skus_no_products df H).
  do 4 eexists. split; reflexivity.
Qed.

Lemma calculate_kpis_no_products_witness :
  nunique (map product_id [line_without_product]) = O
  /\ kpi_value "Fragmentation Rate (%)" (calculate_kpis [line_without_product])
     = Some "nan%".
Proof.
  split; [reflexivity|].
  destruct (calculate_kpis_no_products [line_without_product] eq_refl)
    as (t & s & o & u & _ & H).
  exact H.
Defined.

(** ** SKU Analysis View: filtering *)

Lemma fge_nan (x : float64) : fge NaN x = false.
Proof. unfold fge. destruct x; reflexivity. Qed.

(** C10. A row whose [cost_above_best_price] is NaN is returned when no
    filter is active and the threshold is 0, and is omitted as soon as a
    department or supplier filter is non-empty, whatever the filter
    matches, because the threshold comparison [NaN >= 0] is false. *)
Theorem filter_sku_analysis_missing_cost
    (t : list sku_row) (r : sku_row)
    (departments suppliers : option (list string)) :
  In r t ->
  cost_above_best_price r = NaN ->
  (truthy departments = false -> truthy suppliers = false ->
   In r (filter_sku_analysis t departments suppliers (Fin 0)))
  /\ (truthy departments = true \/ truthy suppliers = true ->
      ~ In r (filter_sku_analysis t departments suppliers (Fin 0))).
Proof.
  intros Hin Hnan. unfold filter_sku_analysis. split.
  - intros -> ->. simpl. exact Hin.
  - intros Hact Habs.
    assert (negb (truthy departments) && negb (truthy suppliers)
            && feqb (Fin 0) (Fin 0) = false) as E.
    { destruct Hact as [-> | ->]; simpl;
        [|rewrite andb_false_r]; reflexivity. }
    rewrite E in Habs. apply filter_In in Habs.
    destruct Habs as [_ Hge]. rewrite Hnan, fge_nan in Hge. discriminate.
Qed.

Lemma filter_sku_analysis_missing_cost_witness :
  exists r,
    In r sku_table_with_missing_cost
    /\ cost_above_best_price r = NaN
    /\ In r (filter_sku_analysis sku_table_with_missing_cost None None (Fin 0))
    /\ isin (sk_department r) ["D1"] = true
    /\ ~ In r (filter_sku_analysis sku_table_with_missing_cost
                 (Some ["D1"]) None (Fin 0)).
Proof.
  exists (mkSku "D1" "P1" "Widget" "S1" (Fin 1) NaN NaN NaN).
  assert (In (mkSku "D1" "P1" "Widget" "S1" (Fin 1) NaN NaN NaN)
             sku_table_with_missing_cost) as Hin
      by (left; reflexivity).
  split; [exact Hin|]. split; [reflexivity|].
  split.
  - apply (filter_sku_analysis_missing_cost _ _ None None Hin eq_refl);
      reflexivity.
  - split; [reflexivity|].
    apply (filter_sku_analysis_missing_cost _ _ (Some ["D1"]) None Hin eq_refl).
    left. reflexivity.
Defined.

(** C4, counterexample. A table of one line item without a department:
    the item has no group in the SKU grouping. *)
Lemma null_keys_kept_fails :
  ~ null_keys_kept [department; product_id; description; supplier_id]
      [line_without_department].
Proof.
  intros H.
  destruct (H line_without_department (or_introl eq_refl)) as [g [Hg _]].
  exact Hg.
Qed.

(** C4, as the code has it. Grouping uses pandas' default [dropna=True]:
    a row with a missing value in a key column is a member of no group,
    and a row with a complete key is a member of the group of its key. *)
Theorem groupby_drops_null_keys
    (cols : list (row -> option string)) (df : DataFrame) (r : row) :
  In r df ->
  (key_of cols r = None ->
   forall g, In g (groupby_cols cols df) -> ~ In r (snd g))
  /\ (forall k, key_of cols r = Some k ->
      exists rs, In (k, rs) (groupby_cols cols df) /\ In r rs).
Proof.
  intros Hr. split.
  - intros Hnone g Hg Hin.
    apply (groupby_member _ _ _ _ _ r Hg) in Hin.
    destruct Hin as [_ Hk]. rewrite Hnone in Hk. discriminate.
  - intros k Hk. eexists. split.
    + apply (groupby_row_has_group _ _ _ df r k Hr Hk).
    + apply filter_In. split; [exact Hr|]. apply has_key_true. exact Hk.
Qed.

Lemma groupby_drops_null_keys_witness :
  In line_without_department [line_without_department]
  /\ forall g,
       In g (groupby_cols [department; product_id; description; supplier_id]
               [line_without_department]) ->
       ~ In line_without_department (snd g).
Proof.
  split; [left; reflexivity|].
  apply (groupby_drops_null_keys
           [department; product_id; description; supplier_id]
           [line_without_department] line_without_department
           (or_introl eq_refl)).
  reflexivity.
Defined.

(** ** KPI Calculator: Potential Savings *)

Lemma flat_map_singleton {A B : Type} (g : A -> list B) (h : A -> B)
    (l : list A) :
  (forall a, In a l -> g a = [h a]) -> flat_map g l = map h l.
Proof.
  induction l as [|a l IH]; intros H; [reflexivity|].
  simpl. rewrite (H a (or_introl eq_refl)). simpl. f_equal.
  apply IH. intros x Hx. apply H. right. exact Hx.
Qed.

(** In a table with distinct keys, the rows matching a key that is
    present are that one row. *)
Lemma filter_unique_key {V : Type} (l : list (string * V)) (p : string) (v : V) :
  NoDup (map fst l) -> In (p, v) l ->
  filter (fun b => okey_eqb (Some p) (Some (fst b))) l = [(p, v)].
Proof.
  induction l as [|[p' v'] l IH]; intros Hnd Hin; [destruct Hin|].
  inversion Hnd as [|? ? Hnotin Hnd']; subst. simpl in *.
  unfold okey_eqb at 1.
  destruct (ostring_eq_dec (Some p) (Some p')) as [E|E].
  - inversion E; subst p'. destruct Hin as [Hin|Hin].
    + inversion Hin; subst v'. f_equal.
      rewrite (filter_ext_in _ (fun _ => false)); [apply filter_false|].
      intros [q w] Hq. unfold okey_eqb.
      destruct (ostring_eq_dec (Some p) (Some (fst (q, w)))) as [E'|];
        [|reflexivity].
      simpl in E'. inversion E'; subst q.
      exfalso. apply Hnotin. apply in_map_iff. exists (p, w). auto.
    + exfalso. apply Hnotin. apply in_map_iff. exists (p, v). auto.
  - destruct Hin as [Hin|Hin].
    + inversion Hin; subst. contradiction.
    + apply IH; assumption.
Qed.

Lemma min_price_table_keys (df : DataFrame) :
  NoDup (map fst (min_price_table df)).
Proof.
  unfold min_price_table, groupby_col. rewrite map_map. simpl.
  change (map (fun x : string * list row => fst x)
              (groupby string_dec String.leb product_id df))
    with (map fst (groupby string_dec String.leb product_id df)).
  rewrite groupby_keys. apply group_keys_NoDup.
Qed.

Lemma has_key_same_product (df : DataFrame) (r : row) (p : string) :
  product_id r = Some p ->
  filter (has_key string_dec product_id p) df = filter (same_product r) df.
Proof.
  intros Hp. apply filter_ext. intros r'.
  unfold has_key, same_product, okey_eqb. rewrite Hp.
  destruct (product_id r') as [p'|].
  - destruct (string_dec p' p) as [->|Hne];
      destruct (ostring_eq_dec _ _) as [E|E]; try reflexivity.
    + contradiction.
    + inversion E. contradiction.
  - destruct (ostring_eq_dec _ _) as [E|E]; [discriminate|reflexivity].
Qed.

Lemma min_price_table_row (df : DataFrame) (r : row) (p : string) :
  In r df -> product_id r = Some p ->
  In (p, min_price_observed df r) (min_price_table df).
Proof.
  intros Hr Hp. unfold min_price_table, min_price_observed.
  apply in_map_iff.
  exists (p, filter (has_key string_dec product_id p) df). split.
  - simpl. rewrite (has_key_same_product df r p Hp). reflexivity.
  - apply (groupby_row_has_group _ _ _ df r p Hr Hp).
Qed.

Lemma flat_map_filter {A B : Type} (g : A -> list B) (h : A -> B)
    (keep : A -> bool) (l : list A) :
  (forall a, In a l -> g a = if keep a then [h a] else []) ->
  flat_map g l = map h (filter keep l).
Proof.
  induction l as [|a l IH]; intros H; [reflexivity|].
  simpl. rewrite (H a (or_introl eq_refl)).
  rewrite IH by (intros x Hx; apply H; right; exact Hx).
  destruct (keep a); reflexivity.
Qed.

(** The merge keeps, in order, the rows that carry a product id, each
    joined to the minimum price of its product. *)
Lemma saving_potential_rows (df : DataFrame) :
  saving_potential df
  = sum_skipna (map (overpayment df) (filter has_product df)).
Proof.
  unfold saving_potential, merge. f_equal.
  rewrite (flat_map_filter _
             (fun r => (r, (match product_id r with Some p => p | None => "" end,
                            min_price_observed df r)))
             has_product).
  - rewrite map_map. reflexivity.
  - intros r Hr. unfold has_product.
    destruct (product_id r) as [p|] eqn:Hp.
    + rewrite (filter_unique_key _ p (min_price_observed df r)
                 (min_price_table_keys df) (min_price_table_row df r p Hr Hp)).
      reflexivity.
    + rewrite filter_none; [reflexivity|].
      intros b _. unfold okey_eqb.
      destruct (ostring_eq_dec None (Some (fst b))); [discriminate|reflexivity].
Qed.

Lemma saving_potential_refines (df : DataFrame) :
  (forall r, In r df -> product_id r <> None) ->
  saving_potential df = potential_savings_spec df.
Proof.
  intros Hall. rewrite saving_potential_rows. unfold potential_savings_spec.
  rewrite forallb_filter_id; [reflexivity|].
  apply forallb_forall. intros r Hr. unfold has_product.
  destruct (product_id r) eqn:E; [reflexivity|].
  exfalso. apply (Hall r Hr). exact E.
Qed.

(** C5. The Potential Savings KPI is the formatted sum, over the rows
    that carry a product id, of (unit price minus the minimum unit price
    observed for the row's product) times quantity; on a table whose rows
    all carry a product id that is the sum over every row, as the
    specification words it; and the two-row table of product P1 bought at
    $10 and $20 gives Total Spend $30.00, Potential Savings $10.00,
    Fragmented SKUs 1 and Fragmentation Rate 100.00%. *)
Theorem calculate_kpis_potential_savings :
  (forall df,
      kpi_value "Potential Savings" (calculate_kpis df)
      = Some ("$" ++ format_2f true
                       (sum_skipna (map (overpayment df)
                                        (filter has_product df))))
      /\ ((forall r, In r df -> product_id r <> None) ->
          saving_potential df = potential_savings_spec df
          /\ kpi_value "Potential Savings" (calculate_kpis df)
             = Some ("$" ++ format_2f true (potential_savings_spec df))))
  /\ kpi_value "Total Spend" (calculate_kpis two_supplier_table)
     = Some "$30.00"
  /\ kpi_value "Potential Savings" (calculate_kpis two_supplier_table)
     = Some "$10.00"
  /\ kpi_value "Fragmented SKUs" (calculate_kpis two_supplier_table)
     = Some "1"
  /\ kpi_value "Fragmentation Rate (%)" (calculate_kpis two_supplier_table)
     = Some "100.00%".
Proof.
  split.
  - intros df. split.
    + unfold calculate_kpis, kpi_value. simpl.
      rewrite saving_potential_rows. reflexivity.
    + intros Hall. split; [apply saving_potential_refines, Hall|].
      unfold calculate_kpis, kpi_value. simpl.
      rewrite (saving_potential_refines df Hall). reflexivity.
  - repeat split; vm_compute; reflexivity.
Qed.

Lemma calculate_kpis_potential_savings_witness :
  (forall r, In r two_supplier_table -> product_id r <> None)
  /\ saving_potential two_supplier_table = Fin 10
  /\ potential_savings_spec two_supplier_table = Fin 10.
Proof.
  assert (forall r, In r two_supplier_table -> product_id r <> None) as Hall.
  { intros r [<-|[<-|[]]]; discriminate. }
  split; [exact Hall|].
  destruct calculate_kpis_potential_savings as [Hgen _].
  destruct (proj2 (Hgen two_supplier_table) Hall) as [Heq _].
  split; [rewrite Heq|]; vm_compute; reflexivity.
Defined.

(** ** SKU Analysis View: cost above best price *)

Lemma merge_In {A B : Type} (ka : A -> option string) (kb : B -> option string)
    (left : list A) (right : list B) (a : A) (b : B) :
  In (a, b) (merge ka kb left right)
  <-> In a left /\ In b right /\ okey_eqb (ka a) (kb b) = true.
Proof.
  unfold merge. rewrite in_flat_map. split.
  - intros [a' [Ha H]]. apply in_map_iff in H.
    destruct H as [b' [E Hb]]. inversion E; subst.
    apply filter_In in Hb. tauto.
  - intros (Ha & Hb & E). exists a. split; [exact Ha|].
    apply in_map. apply filter_In. auto.
Qed.


Lemma sku_key_product (r : row) (k : key) :
  key_of [department; product_id; description; supplier_id] r = Some k ->
  product_id r = Some (col 1 k).
Proof.
  simpl. destruct (department r), (product_id r), (description r),
    (supplier_id r); intros E; inversion E; reflexivity.
Qed.






(** ** Risk Analyzer *)

Lemma fle_total (a b : float64) :
  isnan a = false -> isnan b = false -> fle a b = false -> fle b a = true.
Proof.
  destruct a as [p| | |], b as [q| | |]; simpl; intros Ha Hb H;
    try discriminate; try reflexivity.
  apply Qle_bool_iff.
  assert (~ (p <= q)%Q) as Hn
      by (intros Hc; apply Qle_bool_iff in Hc; congruence).
  lra.
Qed.

Lemma fle_trans (a b c : float64) :
  fle a b = true -> fle b c = true -> fle a c = true.
Proof.
  destruct a as [p| | |], b as [q| | |], c as [r| | |]; simpl;
    intros H1 H2; try discriminate; try reflexivity.
  apply Qle_bool_iff in H1, H2. apply Qle_bool_iff. lra.
Qed.

Lemma desc_leb_total (a b : float64) :
  desc_leb a b = false -> desc_leb b a = true.
Proof.
  unfold desc_leb. destruct (isnan b) eqn:Eb; [discriminate|].
  destruct (isnan a) eqn:Ea; [reflexivity|]. apply fle_total; assumption.
Qed.

Lemma desc_leb_trans (a b c : float64) :
  desc_leb a b = true -> desc_leb b c = true -> desc_leb a c = true.
Proof.
  unfold desc_leb. destruct (isnan c) eqn:Ec; [reflexivity|].
  destruct (isnan b) eqn:Eb; [discriminate|].
  destruct (isnan a) eqn:Ea; [discriminate|].
  intros H1 H2. eapply fle_trans; eassumption.
Qed.


Lemma Qsign_pos (t : Q) : (0 < t)%Q -> Qsign t = Gt.
Proof.
  unfold Qsign, Qlt. simpl. intros H. apply Z.compare_gt_iff. lia.
Qed.










(** Reading back the second of two columns of equal length. *)
Lemma second_column {A B C : Type} (g : A * B -> C) (h : B -> C)
    (xs : list A) (ys : list B) :
  List.length ys = List.length xs ->
  (forall a b, g (a, b) = h b) ->
  map g (combine xs ys) = map h ys.
Proof.
  intros Hlen Hg. revert ys Hlen.
  induction xs as [|a xs IH]; intros [|b ys] Hlen; simpl in Hlen;
    try reflexivity; try discriminate.
  simpl. rewrite Hg. f_equal. apply IH. lia.
Qed.

Lemma cumsum_from_length (acc : float64) (xs : list float64) :
  List.length (cumsum_from acc xs) = List.length xs.
Proof.
  revert acc. induction xs as [|x xs IH]; intros acc; [reflexivity|].
  simpl. destruct (isnan x); simpl; rewrite IH; reflexivity.
Qed.

Lemma cum_spend_pcts_length (vs : list float64) :
  List.length (cum_spend_pcts vs) = List.length vs.
Proof.
  unfold cum_spend_pcts, cumsum. rewrite length_map.
  apply cumsum_from_length.
Qed.

Lemma sku_summary_pcts (df : DataFrame) :
  map cum_spend_pct (sku_summary df)
  = cum_spend_pcts (map total_net_value (sku_summary_sorted df)).
Proof.
  unfold sku_summary. rewrite map_map. simpl.
  rewrite (second_column _ (fun c => c)).
  - apply map_id.
  - rewrite cum_spend_pcts_length, length_map. reflexivity.
  - reflexivity.
Qed.



Lemma sku_summary_sorted_In (df : DataFrame) (s : sku_summary_row) :
  In s (sku_summary_sorted df) ->
  exists g, In g (groupby_cols [product_id; description] df)
            /\ ss_product_id s = col 0 (fst g)
            /\ total_net_value s = sum_skipna (map net_value (snd g))
            /\ supplier_count s = nunique (map supplier_id (snd g)).
Proof.
  unfold sku_summary_sorted, sort_values_desc. rewrite sort_by_In.
  intros H. apply in_map_iff in H. destruct H as [g [<- Hg]].
  exists g. simpl. auto.
Qed.












Lemma critical_suppliers_empty_of_no_top (df : DataFrame) :
  (forall s, In s (sku_summary df) -> fle (cum_spend_pct s) (Fin 80) = false) ->
  calculate_critical_suppliers df = [].
Proof.
  intros H. unfold calculate_critical_suppliers, critical_single_sourced_skus.
  unfold top_spend_skus at 1. rewrite (filter_none _ _ H). simpl.
  rewrite filter_false. reflexivity.
Qed.

Lemma isin_true (s : string) (l : list string) : In s l -> isin s l = true.
Proof.
  intros H. unfold isin. apply existsb_exists. exists s.
  split; [exact H | apply String.eqb_refl].
Qed.

Lemma drop_duplicates_In {A : Type} (dec : forall a b : A, {a = b} + {a <> b})
    (l : list A) (x : A) :
  In x (drop_duplicates dec l) <-> In x l.
Proof.
  unfold drop_duplicates. rewrite <- in_rev, nodup_In, <- in_rev.
  reflexivity.
Qed.





(** ** Volatility Analyzer *)

Lemma Qred_zero (q : Q) : (q == 0)%Q -> Qred q = 0%Q.
Proof. intros H. apply (Qred_complete q 0 H). Qed.

Lemma Qsign_Eq (q : Q) : Qsign q = Eq <-> (q == 0)%Q.
Proof.
  unfold Qsign, Qeq. simpl. rewrite Z.compare_eq_iff. lia.
Qed.

(** With a zero deviation the reported CV is 0 whatever the mean. *)
Lemma cv_zero_std (m : float64) : fillna0 (cv_pct (Fin 0) m) = Fin 0.
Proof.
  unfold cv_pct. destruct m as [b| | |]; try reflexivity.
  unfold fdiv. destruct (Qsign b); reflexivity.
Qed.

Lemma cv_nan_std (m : float64) : fillna0 (cv_pct NaN m) = Fin 0.
Proof. reflexivity. Qed.

Lemma var_step_nan (l : list float64) (n : nat) (m : float64) :
  exists n' m', fold_left var_step l (n, m, NaN) = (n', m', NaN).
Proof.
  revert n m. induction l as [|v l IH]; intros n m; simpl.
  - eauto.
  - replace (fadd NaN (fmul (fsub v (fadd m (fdiv (fsub v m) (of_nat (S n)))))
                            (fsub v m))) with NaN by reflexivity.
    apply IH.
Qed.

Lemma var_step_fin (n : nat) (m s v : Q) :
  var_step (n, Fin m, Fin s) (Fin v)
  = (S n,
     Fin (Qred (m + Qred (Qred (v - m) / Qn (S n)))),
     Fin (Qred (s + Qred (Qred (v - Qred (m + Qred (Qred (v - m) / Qn (S n))))
                          * Qred (v - m))))).
Proof.
  unfold var_step, fsub, fdiv, of_nat. fold (Qn (S n)).
  rewrite Qsign_Qn_succ. reflexivity.
Qed.

(** One-pass variance over values all equal to [q]: the sum of squares
    stays zero. *)
Lemma var_step_const (q : Q) (l : list float64) (n : nat) (m s : Q) :
  (forall y, In y l -> exists q', y = Fin q' /\ (q' == q)%Q) ->
  (s == 0)%Q -> ((1 <= n)%nat -> (m == q)%Q) ->
  exists m' s',
    fold_left var_step l (n, Fin m, Fin s)
    = ((n + List.length l)%nat, Fin m', Fin s')
    /\ (s' == 0)%Q.
Proof.
  revert n m s. induction l as [|v l IH]; intros n m s Hl Hs Hm.
  - exists m, s. simpl. rewrite Nat.add_0_r. auto.
  - destruct (Hl v (or_introl eq_refl)) as [q' [-> Hq']].
    cbn [fold_left]. rewrite var_step_fin.
    set (m1 := Qred (m + Qred (Qred (q' - m) / Qn (S n)))).
    set (s1 := Qred (s + Qred (Qred (q' - m1) * Qred (q' - m)))).
    assert (m1 == q)%Q as Hm1.
    { unfold m1. rewrite !Qred_correct. rewrite Hq'.
      destruct n as [|n].
      - change (Qn 1) with 1%Q. field.
      - rewrite (Hm (le_n_S _ _ (Nat.le_0_l n))).
        pose proof (Qn_pos (S n)). field. lra. }
    assert (s1 == 0)%Q as Hs1.
    { unfold s1. rewrite !Qred_correct. rewrite Hs, Hm1, Hq'. ring. }
    destruct (IH (S n) m1 s1) as (m' & s' & E & Hs').
    + intros y Hy. apply Hl. right. exact Hy.
    + exact Hs1.
    + intros _. exact Hm1.
    + exists m', s'. split; [|exact Hs'].
      rewrite E. f_equal. f_equal. simpl. lia.
Qed.

Lemma var_skipna_const (q : Q) (xs : list float64) :
  (forall y, In y (dropna xs) -> exists q', y = Fin q' /\ (q' == q)%Q) ->
  var_skipna xs = NaN \/ var_skipna xs = Fin 0.
Proof.
  intros Hl. unfold var_skipna.
  destruct (var_step_const q (dropna xs) O 0 0 Hl) as (m' & s' & E & Hs');
    [reflexivity | intros H; inversion H |].
  rewrite E. simpl Nat.add.
  destruct (List.length (dropna xs) <=? 1)%nat eqn:En; [left; reflexivity|].
  right. apply Nat.leb_gt in En.
  destruct (List.length (dropna xs)) as [|[|k]]; try lia.
  replace (S (S k) - 1)%nat with (S k) by lia.
  unfold fdiv, of_nat. fold (Qn (S k)). rewrite Qsign_Qn_succ.
  f_equal. apply Qred_zero. rewrite Hs'. unfold Qdiv. ring.
Qed.

Lemma feqb_fin_inv (y : float64) (q : Q) :
  feqb y (Fin q) = true -> exists q', y = Fin q' /\ (q' == q)%Q.
Proof.
  destruct y as [q'| | |]; simpl; try discriminate.
  intros H. exists q'. split; [reflexivity|].
  apply Qeq_bool_iff. exact H.
Qed.

Lemma dropna_In (xs : list float64) (y : float64) :
  In y (dropna xs) <-> In y xs /\ isnan y = false.
Proof.
  unfold dropna, notna. rewrite filter_In, negb_true_iff. reflexivity.
Qed.

(** The sum of squares is NaN from the first infinite observation on. *)
Lemma var_step_first_inf (l : list float64) (x : float64) :
  isinf x = true ->
  exists n' m', fold_left var_step (x :: l) (O, Fin 0, Fin 0) = (n', m', NaN).
Proof.
  intros Hx. destruct x; try discriminate; simpl; apply var_step_nan.
Qed.

Lemma std_skipna_single_price (xs : list float64) :
  single_price xs -> std_skipna xs = NaN \/ std_skipna xs = Fin 0.
Proof.
  intros (x & Hx & Hnan & Hall). unfold std_skipna, var_skipna.
  destruct x as [q| | |]; try discriminate.
  - fold (var_skipna xs). destruct (var_skipna_const q xs) as [E|E].
    + intros y Hy. apply dropna_In in Hy. destruct Hy as [Hy Hn].
      apply feqb_fin_inv. apply Hall; assumption.
    + left. rewrite E. reflexivity.
    + right. rewrite E. reflexivity.
  - left. destruct (dropna xs) as [|y l] eqn:E.
    + reflexivity.
    + assert (y = PInf) as ->.
      { assert (In y (dropna xs)) as Hy by (rewrite E; left; reflexivity).
        apply dropna_In in Hy. destruct Hy as [Hy Hn].
        specialize (Hall y Hy Hn). destruct y; try discriminate; reflexivity. }
      destruct (var_step_first_inf l PInf eq_refl) as (n' & m' & ->).
      destruct (n' <=? 1)%nat; reflexivity.
  - left. destruct (dropna xs) as [|y l] eqn:E.
    + reflexivity.
    + assert (y = NInf) as ->.
      { assert (In y (dropna xs)) as Hy by (rewrite E; left; reflexivity).
        apply dropna_In in Hy. destruct Hy as [Hy Hn].
        specialize (Hall y Hy Hn). destruct y; try discriminate; reflexivity. }
      destruct (var_step_first_inf l NInf eq_refl) as (n' & m' & ->).
      destruct (n' <=? 1)%nat; reflexivity.
Qed.

Lemma calculate_price_volatility_In (df : DataFrame) (v : volatility_row) :
  In v (calculate_price_volatility df)
  <-> exists g, In g (groupby_cols [product_id; description] df)
                /\ v = fillna0_row (volatility_of_group g).
Proof.
  unfold calculate_price_volatility, sort_values_desc.
  rewrite in_map_iff. split.
  - intros [w [<- Hw]]. apply sort_by_In in Hw. apply in_map_iff in Hw.
    destruct Hw as [g [<- Hg]]. exists g. auto.
  - intros [g [Hg ->]]. exists (volatility_of_group g).
    split; [reflexivity|]. apply sort_by_In. apply in_map. exact Hg.
Qed.

Lemma single_price_cv_zero (g : key * list row) :
  single_price (map unit_price (snd g)) ->
  CV_pct (fillna0_row (volatility_of_group g)) = Fin 0.
Proof.
  intros H. simpl.
  destruct (std_skipna_single_price _ H) as [-> | ->];
    [apply cv_nan_std | apply cv_zero_std].
Qed.

Lemma Qn_ge_1 (n : nat) : (1 <= Qn (S n))%Q.
Proof.
  rewrite Qn_succ. assert (0 <= Qn n)%Q; [|lra].
  unfold Qn, Qle. simpl. lia.
Qed.

Lemma Qsquare_nonneg (d : Q) : (0 <= d * d)%Q.
Proof.
  destruct (Qlt_le_dec d 0) as [Hneg|Hpos].
  - assert (d * d == (- d) * (- d))%Q as E by ring. rewrite E.
    apply Qmult_le_0_compat; lra.
  - apply Qmult_le_0_compat; assumption.
Qed.

(** The one-pass sum of squares never goes negative on finite values. *)
Lemma var_step_nonneg (qs : list Q) (n : nat) (m s : Q) :
  (0 <= s)%Q ->
  exists m' s',
    fold_left var_step (map Fin qs) (n, Fin m, Fin s)
    = ((n + List.length qs)%nat, Fin m', Fin s')
    /\ (0 <= s')%Q.
Proof.
  revert n m s. induction qs as [|v qs IH]; intros n m s Hs.
  - exists m, s. simpl. rewrite Nat.add_0_r. auto.
  - cbn [map fold_left]. rewrite var_step_fin.
    set (m1 := Qred (m + Qred (Qred (v - m) / Qn (S n)))).
    set (s1 := Qred (s + Qred (Qred (v - m1) * Qred (v - m)))).
    assert (0 <= s1)%Q as Hs1.
    { unfold s1, m1. rewrite !Qred_correct.
      pose proof (Qn_ge_1 n) as HN.
      set (N := Qn (S n)) in *. clearbody N.
      assert ((v - (m + (v - m) / N)) * (v - m)
              == (v - m) * (v - m) * ((N - 1) / N))%Q as E
          by (field; lra).
      rewrite E.
      pose proof (Qsquare_nonneg (v - m)) as Hsq.
      assert (0 <= (N - 1) / N)%Q as Hfrac
          by (apply Qle_shift_div_l; lra).
      pose proof (Qmult_le_0_compat _ _ Hsq Hfrac) as Hprod.
      set (P := ((v - m) * (v - m) * ((N - 1) / N))%Q) in *.
      clearbody P. lra. }
    destruct (IH (S n) m1 s1 Hs1) as (m' & s' & E & Hs').
    exists m', s'. split; [|exact Hs'].
    rewrite E. f_equal. f_equal. simpl. lia.
Qed.

Lemma Qsqrt_nonneg (q : Q) : (0 <= Qsqrt q)%Q.
Proof.
  unfold Qsqrt. rewrite Qred_correct.
  generalize (Qnum q * Z.pos (Qden q) * 2 ^ 104)%Z. intros z.
  unfold Qle. simpl. pose proof (Z.sqrt_up_nonneg z). lia.
Qed.

Lemma Qsign_nonneg (q : Q) : (0 <= q)%Q -> Qsign q <> Lt.
Proof.
  unfold Qsign, Qle. simpl. intros H E.
  change (Qnum q < 0)%Z in E. lia.
Qed.

Lemma std_skipna_nonneg (xs : list float64) :
  Forall finite_or_nan xs -> nonneg_or_nan (std_skipna xs).
Proof.
  intros Hfin. unfold std_skipna, var_skipna.
  rewrite (dropna_fin_values xs Hfin).
  destruct (var_step_nonneg (fin_values xs) O 0 0 (Qle_refl 0))
    as (m' & s' & -> & Hs').
  simpl Nat.add.
  destruct (List.length (fin_values xs)) as [|[|k]]; try exact I.
  replace (S (S k) - 1)%nat with (S k) by lia.
  replace (S (S k) <=? 1)%nat with false by reflexivity.
  unfold fdiv, of_nat. fold (Qn (S k)). rewrite Qsign_Qn_succ.
  assert (0 <= Qred (s' / Qn (S k)))%Q as Hw.
  { rewrite Qred_correct. apply Qle_shift_div_l; [apply Qn_pos|]. lra. }
  unfold fsqrt. pose proof (Qsign_nonneg _ Hw) as Hsign.
  destruct (Qsign (Qred (s' / Qn (S k)))); try contradiction;
    simpl; apply Qsqrt_nonneg.
Qed.

Lemma mean_skipna_nonneg (xs : list float64) :
  Forall nonneg_or_nan xs -> nonneg_or_nan (mean_skipna xs).
Proof.
  intros H.
  assert (Forall finite_or_nan xs) as Hfin.
  { eapply Forall_impl; [|exact H]. intros [| | |]; simpl; auto. }
  destruct (fin_values xs) as [|q qs] eqn:E.
  - unfold mean_skipna. rewrite (dropna_fin_values xs Hfin), E. exact I.
  - destruct (mean_skipna_lower xs 0 Hfin) as [a [-> Ha]].
    + rewrite E. discriminate.
    + intros x Hx. apply fin_values_In in Hx.
      rewrite Forall_forall in H. apply (H (Fin x) Hx).
    + exact Ha.
Qed.

Lemma cv_nonneg (s m : float64) :
  nonneg_or_nan s -> nonneg_or_nan m ->
  fle (Fin 0) (fillna0 (cv_pct s m)) = true.
Proof.
  destruct s as [q| | |], m as [a| | |]; simpl; try contradiction;
    intros Hq Ha; try reflexivity.
  unfold cv_pct, fdiv.
  pose proof (Qsign_nonneg _ Hq) as Sq. pose proof (Qsign_nonneg _ Ha) as Sa.
  destruct (Qsign a) eqn:Ea; try contradiction.
  - destruct (Qsign q); try contradiction; reflexivity.
  - assert (0 < a)%Q as Hpos.
    { unfold Qsign in Ea. change (Qnum a > 0)%Z in Ea.
      unfold Qlt. simpl. lia. }
    unfold fmul, fillna0, isnan, fle. apply Qle_bool_iff.
    rewrite !Qred_correct.
    assert (0 <= q / a)%Q by (apply Qle_shift_div_l; lra). lra.
Qed.

(** C9, counterexample. Two credit lines at unit prices -10 and -20: the
    mean is negative, the deviation positive, and so the CV is negative. *)
Lemma cv_never_negative_fails : ~ cv_never_negative credited_prices_table.
Proof.
  intros H.
  assert (forallb (fun v => fle (Fin 0) (CV_pct v))
                  (calculate_price_volatility credited_prices_table) = true)
    as Hall by (apply forallb_forall; exact H).
  vm_compute in Hall. discriminate Hall.
Qed.

(** C9, as the code has it. For every product group with exactly one
    distinct unit price the reported CV% is 0 (a missing deviation is
    filled with 0); and CV% is never negative in a table without negative
    or infinite unit prices. *)
Theorem cv_single_price_and_sign (df : DataFrame) :
  (forall g,
      In g (groupby_cols [product_id; description] df) ->
      single_price (map unit_price (snd g)) ->
      In (fillna0_row (volatility_of_group g)) (calculate_price_volatility df)
      /\ CV_pct (fillna0_row (volatility_of_group g)) = Fin 0)
  /\ ((forall r, In r df -> nonneg_or_nan (unit_price r)) ->
      cv_never_negative df).
Proof.
  split.
  - intros g Hg Hsingle. split.
    + apply calculate_price_volatility_In. exists g. auto.
    + apply single_price_cv_zero, Hsingle.
  - intros Hdf v Hv. apply calculate_price_volatility_In in Hv.
    destruct Hv as [g [Hg ->]].
    assert (Forall nonneg_or_nan (map unit_price (snd g))) as Hprices.
    { apply Forall_forall. intros x Hx. apply in_map_iff in Hx.
      destruct Hx as [r [<- Hr]]. apply Hdf.
      apply (groupby_member _ _ _ df g r Hg) in Hr. tauto. }
    assert (Forall finite_or_nan (map unit_price (snd g))) as Hfin.
    { eapply Forall_impl; [|exact Hprices]. intros [| | |]; simpl; auto. }
    simpl. apply cv_nonneg;
      [apply std_skipna_nonneg, Hfin | apply mean_skipna_nonneg, Hprices].
Qed.

Lemma cv_single_price_and_sign_witness :
  exists g,
    In g (groupby_cols [product_id; description] steady_price_table)
    /\ single_price (map unit_price (snd g))
    /\ CV_pct (fillna0_row (volatility_of_group g)) = Fin 0
    /\ (forall r, In r steady_price_table -> nonneg_or_nan (unit_price r))
    /\ cv_never_negative steady_price_table.
Proof.
  exists (["P1"; "Widget"], steady_price_table).
  assert (In (["P1"; "Widget"], steady_price_table)
             (groupby_cols [product_id; description] steady_price_table))
    as Hg by (left; reflexivity).
  assert (single_price (map unit_price (snd (["P1"; "Widget"],
                                             steady_price_table))))
    as Hsingle.
  { exists (Fin 7). split; [left; reflexivity|]. split; [reflexivity|].
    intros y [<-|[<-|[<-|[]]]] _; reflexivity. }
  assert (forall r, In r steady_price_table -> nonneg_or_nan (unit_price r))
    as Hdf by (intros r [<-|[<-|[<-|[]]]]; simpl; unfold Qle; simpl; lia).
  split; [exact Hg|]. split; [exact Hsingle|].
  destruct (cv_single_price_and_sign steady_price_table) as [H1 H2].
  split; [exact (proj2 (H1 _ Hg Hsingle))|].
  split; [exact Hdf | exact (H2 Hdf)].
Defined.

(** ** Volatility at the JSON boundary *)

(** C3. For the product bought at unit prices -5 and 5 the mean is
    exactly zero and the deviation is not; the value delivered for
    ["CV_%"] by the price-volatility endpoint is the number +infinity:
    [fillna(0)] and [to_json_safe_dict] replace NaN only. *)
Theorem zero_mean_delivers_infinity :
  map pv_mean (calculate_price_volatility zero_mean_table) = [Fin 0]
  /\ map (fun v => fle (pv_std v) (Fin 0))
         (calculate_price_volatility zero_mean_table) = [false]
  /\ map (fun rec => find (fun kv => String.eqb (fst kv) "CV_%") rec)
         (get_price_volatility zero_mean_table)
     = [Some ("CV_%", JNum PInf)].
Proof. repeat split; vm_compute; reflexivity. Qed.

(** Whatever the table, a group of zero mean and positive deviation is
    delivered as +infinity, never as the missing marker. *)
Lemma zero_mean_cell (s z : Q) :
  (0 < s)%Q -> (z == 0)%Q ->
  json_of_float (fillna0 (cv_pct (Fin s) (Fin z))) = JNum PInf.
Proof.
  intros Hs Hz. unfold cv_pct, fdiv.
  rewrite (proj2 (Qsign_Eq z) Hz), (Qsign_pos s Hs). reflexivity.
Qed.

(** ** Demand Forecaster *)

Section ForecastFacts.
Variable fit : list float64 -> float64 * float64.

Lemma ses_forecast_length (ys : list float64) (steps : nat) :
  List.length (ses_forecast fit ys steps) = steps.
Proof.
  unfold ses_forecast. destruct (fit ys) as [alpha l0].
  apply repeat_length.
Qed.

Lemma forecast_index_of_length (ms : list Z) (steps : nat) :
  List.length (forecast_index_of ms steps) = steps.
Proof.
  unfold forecast_index_of.
  destruct (inferred_freq ms); rewrite length_map, length_seq; reflexivity.
Qed.

(** Two observations or fewer: the product is skipped. *)
Lemma sku_forecast_short (sku : string) (h : list (Z * float64)) :
  (List.length h <= 2)%nat -> sku_forecast fit sku h = [].
Proof.
  intros H. unfold sku_forecast.
  replace (2 <? List.length h)%nat with false; [reflexivity|].
  symmetry. apply Nat.ltb_ge. exact H.
Qed.

(** Three observations or more: three rows, indexed as statsmodels
    indexes the forecast. *)
Lemma sku_forecast_long (sku : string) (h : list (Z * float64)) :
  (3 <= List.length h)%nat ->
  List.length (sku_forecast fit sku h) = 3%nat
  /\ map Forecast_Date (sku_forecast fit sku h)
     = forecast_index_of (map fst h) 3
  /\ map fc_product_id (sku_forecast fit sku h) = [sku; sku; sku].
Proof.
  intros H. unfold sku_forecast.
  replace (2 <? List.length h)%nat with true
    by (symmetry; apply Nat.ltb_lt; lia).
  pose proof (ses_forecast_length (map snd h) 3) as Lq.
  pose proof (forecast_index_of_length (map fst h) 3) as Li.
  destruct (ses_forecast fit (map snd h) 3) as [|q1 [|q2 [|q3 [|]]]];
    try discriminate Lq.
  destruct (forecast_index_of (map fst h) 3) as [|i1 [|i2 [|i3 [|]]]];
    try discriminate Li.
  repeat split.
Qed.

(** Observations in consecutive months: the forecast is dated at the
    three months after the last one. *)
Lemma forecast_index_of_consecutive (ms : list Z) :
  (3 <= List.length ms)%nat ->
  constant_step 1 ms = true ->
  forecast_index_of ms 3 = next_three_months (last ms 0%Z).
Proof.
  intros Hlen Hstep. unfold forecast_index_of, inferred_freq.
  destruct ms as [|a [|b [|c ms]]]; simpl in Hlen; try lia.
  assert (b - a = 1)%Z as E.
  { cbn [constant_step] in Hstep. apply andb_true_iff in Hstep.
    destruct Hstep as [Hb _]. apply Z.eqb_eq in Hb. exact Hb. }
  rewrite E, Hstep. unfold next_three_months. simpl map.
  repeat f_equal; lia.
Qed.

Lemma filter_flat_map_single (F : string -> list forecast_row)
    (l : list string) (sku : string) :
  (forall s r, In r (F s) -> fc_product_id r = s) ->
  NoDup l -> In sku l ->
  filter (fun r => String.eqb (fc_product_id r) sku) (flat_map F l) = F sku.
Proof.
  intros HF. induction l as [|s l IH]; intros Hnd Hin; [destruct Hin|].
  inversion Hnd as [|? ? Hnotin Hnd']; subst.
  simpl. rewrite filter_app.
  assert (forall s', s' <> sku ->
            filter (fun r => String.eqb (fc_product_id r) sku) (F s') = [])
    as Hother.
  { intros s' Hne. apply filter_none. intros r Hr.
    rewrite (HF s' r Hr). apply String.eqb_neq. exact Hne. }
  assert (filter (fun r => String.eqb (fc_product_id r) sku) (F sku) = F sku)
    as Hsame.
  { apply forallb_filter_id. apply forallb_forall. intros r Hr.
    rewrite (HF sku r Hr). apply String.eqb_refl. }
  destruct Hin as [->|Hin].
  - rewrite Hsame.
    assert (filter (fun r => String.eqb (fc_product_id r) sku)
                   (flat_map F l) = []) as ->; [|apply app_nil_r].
    clear IH Hnd Hnd'. induction l as [|s' l IH]; [reflexivity|].
    simpl. rewrite filter_app, Hother, IH; [reflexivity| |].
    + intros Hc. apply Hnotin. right. exact Hc.
    + intros ->. apply Hnotin. left. reflexivity.
  - rewrite Hother, (IH Hnd' Hin); [reflexivity|].
    intros ->. contradiction.
Qed.

Lemma sku_forecast_product (sku : string) (h : list (Z * float64))
    (r : forecast_row) :
  In r (sku_forecast fit sku h) -> fc_product_id r = sku.
Proof.
  unfold sku_forecast. destruct (2 <? List.length h)%nat; [|intros []].
  intros H. apply in_map_iff in H. destruct H as [iv [<- _]]. reflexivity.
Qed.
End ForecastFacts.

(** Filtering a keyed table keeps its keys distinct. *)
Lemma distinct_keys_filter {K V : Type} (keep : K * V -> bool)
    (rows : list (K * V)) :
  NoDup (map fst rows) -> NoDup (map fst (filter keep rows)).
Proof.
  induction rows as [|kv rows IH]; intros Hnd; [constructor|].
  simpl in Hnd. inversion Hnd as [|? ? Hfresh Hrest]; subst.
  simpl. destruct (keep kv); [|apply IH, Hrest].
  simpl. constructor; [|apply IH, Hrest].
  intros Hc. apply Hfresh. apply in_map_iff in Hc.
  destruct Hc as [x [E Hx]]. apply filter_In in Hx.
  apply in_map_iff. exists x. tauto.
Qed.

(** The first [n] entries of a list without duplicates have none. *)
Lemma firstn_distinct {A : Type} (n : nat) (l : list A) :
  NoDup l -> NoDup (firstn n l).
Proof.
  intros H. rewrite <- (firstn_skipn n l) in H.
  apply NoDup_app_remove_r in H. exact H.
Qed.

Lemma top_5_skus_NoDup (df : DataFrame) : NoDup (top_5_skus_by_qty df).
Proof.
  unfold top_5_skus_by_qty, nlargest. rewrite <- firstn_map.
  apply firstn_distinct. unfold sort_values_desc.
  eapply Permutation_NoDup;
    [apply Permutation_map, Permutation_sym, sort_by_perm|].
  apply distinct_keys_filter. rewrite map_map. simpl.
  change (map (fun x : string * list row => fst x)
              (groupby_col product_id df))
    with (map fst (groupby string_dec String.leb product_id df)).
  rewrite groupby_keys. apply group_keys_NoDup.
Qed.

(** The rows of a selected product are the forecast of its history. *)
Lemma forecast_rows_of_selected (fit : list float64 -> float64 * float64)
    (df : DataFrame) (sku : string) :
  In sku (top_5_skus_by_qty df) ->
  forecast_rows_of fit df sku = sku_forecast fit sku (sku_history df sku).
Proof.
  intros Hin. unfold forecast_rows_of, calculate_demand_forecast.
  apply (filter_flat_map_single
           (fun s => sku_forecast fit s (sku_history df s))).
  - intros s r. apply sku_forecast_product.
  - apply top_5_skus_NoDup.
  - exact Hin.
Qed.

(** What holds of the forecaster on every table: a selected product with
    two monthly observations or fewer has no forecast row; one with three
    or more has exactly three, and they are dated at the three months
    after its last observation when its observations are in consecutive
    months. *)
Lemma forecast_rows_count (fit : list float64 -> float64 * float64)
    (df : DataFrame) (sku : string) :
  In sku (top_5_skus_by_qty df) ->
  ((List.length (sku_history df sku) <= 2)%nat ->
   forecast_rows_of fit df sku = [])
  /\ ((3 <= List.length (sku_history df sku))%nat ->
      List.length (forecast_rows_of fit df sku) = 3%nat
      /\ (constant_step 1 (map fst (sku_history df sku)) = true ->
          map Forecast_Date (forecast_rows_of fit df sku)
          = next_three_months (last (map fst (sku_history df sku)) 0%Z))).
Proof.
  intros Hin. rewrite (forecast_rows_of_selected fit df sku Hin). split.
  - apply sku_forecast_short.
  - intros H3.
    destruct (sku_forecast_long fit sku _ H3) as (Hlen & Hdates & _).
    split; [exact Hlen|]. intros Hstep. rewrite Hdates.
    apply forecast_index_of_consecutive; [rewrite length_map; exact H3|].
    exact Hstep.
Qed.

Example forecast_rows_monthly :
  forall fit,
    map (fun r => (fc_product_id r, Forecast_Date r))
        (calculate_demand_forecast fit monthly_history_table)
    = [ ("P1", AtMonth 24291); ("P1", AtMonth 24292); ("P1", AtMonth 24293) ].
Proof.
  intros fit. vm_compute. destruct (fit _). reflexivity.
Qed.

(** On the table whose product P1 was bought in January, February and
    April 2024 the property as the specification states it fails. *)
Lemma forecast_months_follow_fails :
  forall fit, ~ forecast_months_follow fit gapped_history_table.
Proof.
  intros fit Hclaim.
  assert (In "P1" (top_5_skus_by_qty gapped_history_table)) as Hin
      by (left; reflexivity).
  assert (3 <= List.length (sku_history gapped_history_table "P1"))%nat as Hlen
      by (vm_compute; lia).
  destruct (Hclaim "P1" Hin) as [_ H3]. specialize (H3 Hlen).
  rewrite (forecast_rows_of_selected fit _ _ Hin) in H3.
  destruct (sku_forecast_long fit "P1" _ Hlen) as (_ & Hdates & _).
  rewrite Hdates in H3. discriminate H3.
Qed.

(** C6. Product P1 was bought in January, February and April 2024: three
    monthly observations with a gap.  The forecaster emits three rows for
    it, and their [Forecast_Date] are the row positions 3, 4 and 5, not
    the months May, June and July: the date index of the history has no
    frequency, so the fitted model forecasts on an integer index. *)
Theorem forecast_dates_on_gapped_history :
  forall fit,
    In "P1" (top_5_skus_by_qty gapped_history_table)
    /\ map fst (sku_history gapped_history_table "P1") = [24288; 24289; 24291]%Z
    /\ List.length (forecast_rows_of fit gapped_history_table "P1") = 3%nat
    /\ map Forecast_Date (forecast_rows_of fit gapped_history_table "P1")
       = [AtPosition 3; AtPosition 4; AtPosition 5].
Proof.
  intros fit.
  assert (In "P1" (top_5_skus_by_qty gapped_history_table)) as Hin
      by (left; reflexivity).
  split; [exact Hin|]. split; [reflexivity|].
  rewrite (forecast_rows_of_selected fit _ _ Hin).
  destruct (sku_forecast_long fit "P1"
              (sku_history gapped_history_table "P1")) as (Hlen & -> & _);
    [vm_compute; lia|].
  split; [exact Hlen | reflexivity].
Qed.

(** * Further properties of the analysis functions and the endpoints *)

(** ** Sorted output *)

Section SortedFacts.
Context {A : Type}.
Variable leb : A -> A -> bool.
Hypothesis leb_total : forall a b, leb a b = false -> leb b a = true.
Hypothesis leb_trans :
  forall a b c, leb a b = true -> leb b c = true -> leb a c = true.

Lemma insert_sorted_strongly (x : A) (l : list A) :
  StronglySorted (fun a b => leb a b = true) l ->
  StronglySorted (fun a b => leb a b = true) (insert_sorted leb x l).
Proof.
  induction 1 as [|y l Hl IH Hy]; simpl.
  - constructor; constructor.
  - destruct (leb x y) eqn:E.
    + constructor; [constructor; assumption|].
      constructor; [exact E|].
      eapply Forall_impl; [|exact Hy].
      intros a Ha. eapply leb_trans; eassumption.
    + constructor; [exact IH|].
      apply Forall_forall. intros a Ha.
      apply (Permutation_in _ (insert_sorted_perm leb x l)) in Ha.
      destruct Ha as [<-|Ha]; [apply leb_total, E|].
      rewrite Forall_forall in Hy. apply Hy, Ha.
Qed.

Lemma sort_by_strongly (l : list A) :
  StronglySorted (fun a b => leb a b = true) (sort_by leb l).
Proof.
  induction l as [|x l IH]; simpl; [constructor|].
  apply insert_sorted_strongly, IH.
Qed.
End SortedFacts.

(** In a sorted list the first [n] entries precede all the others. *)
Lemma firstn_precedes {A : Type} (R : A -> A -> Prop) (n : nat) (l : list A)
    (a b : A) :
  StronglySorted R l -> In a (firstn n l) -> In b (skipn n l) -> R a b.
Proof.
  intros Hs. revert n. induction Hs as [|x l Hl IH Hx]; intros n Ha Hb.
  - destruct n; destruct Ha.
  - destruct n as [|n]; [destruct Ha|]. simpl in Ha, Hb.
    destruct Ha as [<-|Ha].
    + rewrite Forall_forall in Hx. apply Hx.
      rewrite <- (firstn_skipn n l). apply in_or_app. right. exact Hb.
    + apply (IH n); assumption.
Qed.


Lemma sort_values_desc_sorted {A : Type} (f : A -> float64) (l : list A) :
  StronglySorted (fun a b => desc_ordered (f a) (f b)) (sort_values_desc f l).
Proof.
  unfold sort_values_desc, desc_ordered.
  apply (sort_by_strongly (fun a b => desc_leb (f a) (f b))).
  - intros a b. apply desc_leb_total.
  - intros a b c. apply desc_leb_trans.
Qed.

Lemma firstn_incl {A : Type} (n : nat) (l : list A) (a : A) :
  In a (firstn n l) -> In a l.
Proof.
  intros H. rewrite <- (firstn_skipn n l). apply in_or_app. left. exact H.
Qed.

(** ** KPI Calculator: bounds *)

Lemma supplier_counts_length (df : DataFrame) :
  List.length (supplier_counts df) = nunique (map product_id df).
Proof.
  unfold supplier_counts, groupby_col, groupby, group_keys, nunique.
  rewrite !length_map, omap_id_map.
  apply Permutation_length, sort_by_perm.
Qed.

Lemma fragmented_skus_le (df : DataFrame) :
  (fragmented_skus df <= nunique (map product_id df))%nat.
Proof.
  unfold fragmented_skus. rewrite <- supplier_counts_length.
  apply filter_length_le.
Qed.

Lemma Qn_le (a b : nat) : (a <= b)%nat -> (Qn a <= Qn b)%Q.
Proof.
  intros H. unfold Qn, Qle. simpl. lia.
Qed.

(** X1. Fragmented SKUs never exceeds the number of distinct products,
    and as soon as the table has a product the Fragmentation Rate is a
    number between 0 and 100. *)
Theorem fragmentation_rate_bounds (df : DataFrame) :
  (fragmented_skus df <= nunique (map product_id df))%nat
  /\ (nunique (map product_id df) <> O ->
      exists r, fragmentation_rate df = Fin r /\ (0 <= r)%Q /\ (r <= 100)%Q).
Proof.
  split; [apply fragmented_skus_le|].
  intros Hn. unfold fragmentation_rate.
  pose proof (fragmented_skus_le df) as Hle.
  destruct (nunique (map product_id df)) as [|n]; [contradiction|].
  unfold fdiv, of_nat. fold (Qn (S n)) (Qn (fragmented_skus df)).
  rewrite Qsign_Qn_succ. unfold fmul. eexists. split; [reflexivity|].
  rewrite !Qred_correct.
  pose proof (Qn_pos n) as Hpos.
  pose proof (Qn_le _ _ Hle) as Hq.
  assert (0 <= Qn (fragmented_skus df))%Q as H0
      by (unfold Qn, Qle; simpl; lia).
  assert (0 <= Qn (fragmented_skus df) / Qn (S n))%Q as Hlo
      by (apply Qle_shift_div_l; lra).
  assert (Qn (fragmented_skus df) / Qn (S n) <= 1)%Q as Hhi
      by (apply Qle_shift_div_r; lra).
  set (x := (Qn (fragmented_skus df) / Qn (S n))%Q) in *. clearbody x.
  split; lra.
Qed.

Lemma fragmentation_rate_bounds_witness :
  nunique (map product_id two_supplier_table) <> O
  /\ fragmentation_rate two_supplier_table = Fin 100.
Proof.
  assert (nunique (map product_id two_supplier_table) <> O) as Hn
      by discriminate.
  split; [exact Hn|].
  destruct (proj2 (fragmentation_rate_bounds two_supplier_table) Hn)
    as (r & _ & _ & _).
  reflexivity.
Defined.

(** ** KPI Calculator: Potential Savings is not negative *)




(** ** SKU Analysis View: rows and keys *)

Lemma key_of_length (cols : list (row -> option string)) (r : row) (k : key) :
  key_of cols r = Some k -> List.length k = List.length cols.
Proof.
  revert k. induction cols as [|c cs IH]; intros k H; simpl in H.
  - inversion H. reflexivity.
  - destruct (c r); [|discriminate].
    destruct (key_of cs r) as [k'|]; [|discriminate].
    inversion H. simpl. f_equal. apply IH. reflexivity.
Qed.

Lemma four_columns (k : key) :
  List.length k = 4%nat -> [col 0 k; col 1 k; col 2 k; col 3 k] = k.
Proof.
  destruct k as [|a [|b [|c [|d [|e k]]]]]; intros H; try discriminate H.
  reflexivity.
Qed.

(** The best-price table has an entry for the product of every SKU
    group, so the merge loses no group. *)
Lemma sku_analysis_merge (df : DataFrame) :
  calculate_sku_analysis df
  = map (fun g =>
           let best :=
             min_skipna (map unit_price
                           (filter (has_key string_dec product_id
                                            (col 1 (fst g))) df)) in
           let qty := sum_skipna (map quantity (snd g)) in
           let avg := mean_skipna (map unit_price (snd g)) in
           mkSku (col 0 (fst g)) (col 1 (fst g)) (col 2 (fst g))
                 (col 3 (fst g)) qty avg best (fmul (fsub avg best) qty))
        (sku_groups df).
Proof.
  unfold calculate_sku_analysis, merge.
  rewrite (flat_map_singleton _
             (fun a => (a, (col 1 (fst a),
                            min_skipna
                              (map unit_price
                                   (filter (has_key string_dec product_id
                                                    (col 1 (fst a))) df)))))).
  - rewrite !map_map. reflexivity.
  - intros a Ha. apply in_map_iff in Ha. destruct Ha as [g [<- Hg]]. simpl.
    unfold sku_groups, groupby_cols in Hg. apply groupby_In in Hg.
    destruct Hg as [Hk _]. apply group_keys_In in Hk.
    destruct Hk as (r & Hr & Hkey). apply sku_key_product in Hkey.
    rewrite (filter_unique_key (best_prices_per_sku df) (col 1 (fst g))
               (min_skipna
                  (map unit_price
                       (filter (has_key string_dec product_id (col 1 (fst g)))
                               df))));
      [reflexivity | apply min_price_table_keys |].
    unfold best_prices_per_sku, min_price_table. apply in_map_iff.
    exists (col 1 (fst g),
            filter (has_key string_dec product_id (col 1 (fst g))) df).
    split; [reflexivity|].
    apply (groupby_row_has_group _ _ _ df r _ Hr Hkey).
Qed.

Lemma sku_analysis_keys (df : DataFrame) :
  map sku_key (calculate_sku_analysis df)
  = group_keys key_eq_dec key_leb (key_of sku_cols) df.
Proof.
  rewrite sku_analysis_merge, map_map.
  transitivity (map fst (sku_groups df));
    [|apply (groupby_keys key_eq_dec key_leb (key_of sku_cols) df)].
  apply map_ext_in. intros g Hg. unfold sku_key. simpl.
  apply four_columns.
  unfold sku_groups, groupby_cols in Hg. apply groupby_In in Hg.
  destruct Hg as [Hk _]. apply group_keys_In in Hk.
  destruct Hk as (r & _ & Hkey).
  apply (key_of_length _ _ _ Hkey).
Qed.

(** X3. The SKU analysis has exactly one row for every combination of
    department, product, description and supplier carried by a row with
    none of the four missing; and the best available price of a row is
    the minimum unit price over all the rows of its product. *)
Theorem sku_analysis_rows (df : DataFrame) :
  NoDup (map sku_key (calculate_sku_analysis df))
  /\ (forall k,
         In k (map sku_key (calculate_sku_analysis df))
         <-> exists r, In r df /\ key_of sku_cols r = Some k)
  /\ (forall s,
         In s (calculate_sku_analysis df) ->
         best_available_price s
         = min_skipna
             (map unit_price
                  (filter (has_key string_dec product_id (sk_product_id s))
                          df))).
Proof.
  rewrite sku_analysis_keys. split; [apply group_keys_NoDup|].
  split; [intros k; apply group_keys_In|].
  intros s Hs. rewrite sku_analysis_merge in Hs.
  apply in_map_iff in Hs. destruct Hs as [g [<- _]]. reflexivity.
Qed.

Lemma sku_analysis_rows_witness :
  exists s,
    In s (calculate_sku_analysis two_supplier_table)
    /\ sku_key s = ["D1"; "P1"; "Widget"; "S2"]
    /\ best_available_price s = Fin 10.
Proof.
  exists (mkSku "D1" "P1" "Widget" "S2" (Fin 1) (Fin 20) (Fin 10) (Fin 10)).
  assert (In (mkSku "D1" "P1" "Widget" "S2" (Fin 1) (Fin 20) (Fin 10) (Fin 10))
             (calculate_sku_analysis two_supplier_table)) as Hin
      by (right; left; reflexivity).
  split; [exact Hin|]. split; [reflexivity|].
  rewrite (proj2 (proj2 (sku_analysis_rows two_supplier_table)) _ Hin).
  reflexivity.
Defined.

(** ** SKU Analysis View: how the filters compose *)

Lemma filter_and {A : Type} (f g : A -> bool) (l : list A) :
  filter f (filter g l) = filter (fun x => g x && f x) l.
Proof.
  induction l as [|a l IH]; [reflexivity|].
  simpl. destruct (g a); simpl; [destruct (f a)|]; rewrite IH; reflexivity.
Qed.

(** X4. As soon as one filter is active (a non-empty department list, a
    non-empty supplier list, or a threshold other than 0), a row is
    returned exactly when it is in the table, its department is in the
    department list if that list is non-empty, its supplier is in the
    supplier list if that list is non-empty, and its cost is not missing
    and at least the threshold. *)
Theorem filter_sku_analysis_active
    (t : list sku_row) (departments suppliers : option (list string))
    (cost_threshold : float64) (r : sku_row) :
  negb (truthy departments) && negb (truthy suppliers)
    && feqb cost_threshold (Fin 0) = false ->
  (In r (filter_sku_analysis t departments suppliers cost_threshold)
   <-> In r t
       /\ (truthy departments = true ->
           isin (sk_department r) (members departments) = true)
       /\ (truthy suppliers = true ->
           isin (sk_supplier_id r) (members suppliers) = true)
       /\ isnan (cost_above_best_price r) = false
       /\ fle cost_threshold (cost_above_best_price r) = true).
Proof.
  intros Hact. unfold filter_sku_analysis. rewrite Hact.
  assert (forall x, fge x cost_threshold = true
                    <-> isnan x = false /\ fle cost_threshold x = true)
    as Hge.
  { intros x. unfold fge. split.
    - intros H. split; [|exact H]. destruct cost_threshold, x;
        simpl in *; try discriminate; reflexivity.
    - tauto. }
  destruct (truthy departments), (truthy suppliers);
    rewrite ?filter_In, Hge; intuition congruence.
Qed.

Lemma filter_sku_analysis_active_witness :
  In (mkSku "D1" "P1" "Widget" "S2" (Fin 1) (Fin 20) (Fin 10) (Fin 10))
     (filter_sku_analysis (calculate_sku_analysis two_supplier_table)
        (Some ["D1"]) None (Fin 5)).
Proof.
  apply filter_sku_analysis_active; [reflexivity|].
  split; [right; left; reflexivity|].
  repeat split; try reflexivity. discriminate.
Defined.

(** X5. Filtering is idempotent, and filtering by department and then,
    in a second call, by supplier gives the same table as one call with
    both filters. *)
Theorem filter_sku_analysis_composes
    (t : list sku_row) (departments suppliers : option (list string))
    (cost_threshold : float64) :
  filter_sku_analysis
    (filter_sku_analysis t departments suppliers cost_threshold)
    departments suppliers cost_threshold
  = filter_sku_analysis t departments suppliers cost_threshold
  /\ filter_sku_analysis
       (filter_sku_analysis t departments None cost_threshold)
       None suppliers cost_threshold
     = filter_sku_analysis t departments suppliers cost_threshold.
Proof.
  unfold filter_sku_analysis.
  destruct (truthy departments), (truthy suppliers),
    (feqb cost_threshold (Fin 0)); simpl; split;
    rewrite ?filter_and; try reflexivity;
    apply filter_ext; intros x;
    destruct (isin (sk_department x) (members departments)),
      (isin (sk_supplier_id x) (members suppliers)),
      (fge (cost_above_best_price x) cost_threshold); reflexivity.
Qed.

(** X6. For thresholds that are not negative, raising the threshold
    never adds a row. *)
Theorem filter_sku_analysis_threshold
    (t : list sku_row) (departments suppliers : option (list string))
    (c c' : Q) (r : sku_row) :
  (0 <= c)%Q -> (c <= c')%Q ->
  In r (filter_sku_analysis t departments suppliers (Fin c')) ->
  In r (filter_sku_analysis t departments suppliers (Fin c)).
Proof.
  intros H0 Hcc.
  assert (forall x, fge x (Fin c') = true -> fge x (Fin c) = true) as Hge.
  { intros x Hx. unfold fge in *. apply (fle_trans _ (Fin c')); [|exact Hx].
    simpl. apply Qle_bool_iff. exact Hcc. }
  assert (feqb (Fin c') (Fin 0) = true -> feqb (Fin c) (Fin 0) = true) as Hz.
  { simpl. intros H. apply Qeq_bool_iff in H. apply Qeq_bool_iff. lra. }
  unfold filter_sku_analysis.
  destruct (truthy departments), (truthy suppliers); cbn [negb andb].
  - rewrite !filter_In. intros H. repeat split; try tauto. apply Hge. tauto.
  - rewrite !filter_In. intros H. repeat split; try tauto. apply Hge. tauto.
  - rewrite !filter_In. intros H. repeat split; try tauto. apply Hge. tauto.
  - destruct (feqb (Fin c') (Fin 0)) eqn:E'.
    + rewrite (Hz eq_refl). auto.
    + destruct (feqb (Fin c) (Fin 0)); rewrite ?filter_In; [tauto|].
      intros H. split; [tauto|]. apply Hge. tauto.
Qed.

Lemma filter_sku_analysis_threshold_witness :
  In (mkSku "D1" "P1" "Widget" "S2" (Fin 1) (Fin 20) (Fin 10) (Fin 10))
     (filter_sku_analysis (calculate_sku_analysis two_supplier_table)
        None None (Fin 5)).
Proof.
  apply (filter_sku_analysis_threshold _ None None 5 10).
  - unfold Qle. simpl. lia.
  - unfold Qle. simpl. lia.
  - vm_compute. left. reflexivity.
Defined.

(** ** Risk Analyzer: where the reported rows come from *)

Lemma isin_In (s : string) (l : list string) : isin s l = true -> In s l.
Proof.
  unfold isin. intros H. apply existsb_exists in H.
  destruct H as [x [Hx E]]. apply String.eqb_eq in E. subst. exact Hx.
Qed.

(** X7. Every row of the risk table is a summary row of a product that
    is in the top-spend set and has a supplier count of 1, joined to a
    supplier that some line item of the table records for that product;
    and the rows come in descending order of total spend. *)
Theorem critical_suppliers_rows (df : DataFrame) :
  (forall row,
      In row (calculate_critical_suppliers df) ->
      (exists s,
          In s (sku_summary df)
          /\ ss_product_id s = rk_product_id row
          /\ ss_description s = rk_description row
          /\ total_net_value s = rk_total_net_value row
          /\ supplier_count s = 1%nat
          /\ In (rk_product_id row) (top_spend_skus (sku_summary df)))
      /\ (exists r,
             In r df /\ product_id r = Some (rk_product_id row)
             /\ supplier_id r = rk_supplier_id row))
  /\ StronglySorted
       (fun a b => desc_ordered (rk_total_net_value a) (rk_total_net_value b))
       (calculate_critical_suppliers df).
Proof.
  split; [|apply sort_values_desc_sorted].
  intros row Hrow. unfold calculate_critical_suppliers, sort_values_desc in Hrow.
  apply sort_by_In in Hrow. apply in_map_iff in Hrow.
  destruct Hrow as [[s [p sup]] [<- Hm]]. simpl.
  apply merge_In in Hm. destruct Hm as (Hs & Hinfo & Hk). simpl in Hk.
  split.
  - exists s. unfold critical_single_sourced_skus in Hs.
    apply filter_In in Hs. destruct Hs as [Hs Hb].
    apply andb_true_iff in Hb. destruct Hb as [Htop Hone].
    repeat split; try assumption.
    + apply Nat.eqb_eq. exact Hone.
    + apply isin_In. exact Htop.
  - unfold supplier_info in Hinfo. apply drop_duplicates_In in Hinfo.
    apply in_map_iff in Hinfo. destruct Hinfo as [r [E Hr]].
    inversion E; subst. exists r. split; [exact Hr|]. split; [|reflexivity].
    unfold okey_eqb in Hk.
    destruct (ostring_eq_dec _ _) as [E'|]; [|discriminate].
    symmetry. exact E'.
Qed.

Lemma critical_suppliers_rows_witness :
  exists r,
    In r eighty_percent_table
    /\ product_id r = Some "P1" /\ supplier_id r = Some "S1".
Proof.
  destruct (proj1 (critical_suppliers_rows eighty_percent_table)
              (mkRisk "P1" "Widget" (Some "S1") (Fin 80)))
    as [_ H]; [left; reflexivity | exact H].
Defined.

(** ** Risk Analyzer: a table without spend *)

Lemma fin_sum_zero (qs : list Q) :
  (forall q, In q qs -> (q == 0)%Q) -> fin_sum qs 0 = 0%Q.
Proof.
  induction qs as [|q qs IH]; intros H; [reflexivity|].
  change (fin_sum (q :: qs) 0) with (fin_sum qs (Qred (0 + q))).
  rewrite (Qred_zero (0 + q)).
  - apply IH. intros x Hx. apply H. right. exact Hx.
  - rewrite (H q (or_introl eq_refl)). reflexivity.
Qed.

Lemma sum_skipna_zero (xs : list float64) :
  Forall zero_or_nan xs -> sum_skipna xs = Fin 0.
Proof.
  intros H.
  assert (Forall finite_or_nan xs) as Hfin.
  { eapply Forall_impl; [|exact H]. intros [| | |]; simpl; auto. }
  rewrite (sum_skipna_fins xs Hfin). f_equal. apply fin_sum_zero.
  intros q Hq. apply fin_values_In in Hq.
  rewrite Forall_forall in H. apply (H (Fin q) Hq).
Qed.

Lemma Forall_eq_repeat {A : Type} (a : A) (l : list A) :
  Forall (fun x => x = a) l -> l = repeat a (List.length l).
Proof.
  induction 1 as [|x l Hx _ IH]; [reflexivity|].
  simpl. rewrite Hx. f_equal. exact IH.
Qed.

Lemma cum_spend_pcts_zero (n : nat) :
  cum_spend_pcts (repeat (Fin 0) n) = repeat NaN n.
Proof.
  unfold cum_spend_pcts.
  assert (sum_skipna (repeat (Fin 0) n) = Fin 0) as ->.
  { apply sum_skipna_zero. apply Forall_forall. intros x Hx.
    apply repeat_spec in Hx. subst. simpl. reflexivity. }
  unfold cumsum.
  assert (forall m, cumsum_from (Fin 0) (repeat (Fin 0) m) = repeat (Fin 0) m)
    as Hc.
  { induction m as [|m IH]; [reflexivity|].
    simpl. f_equal. exact IH. }
  rewrite Hc. induction n as [|n IH]; [reflexivity|].
  simpl. f_equal. exact IH.
Qed.

Lemma no_spend_totals (df : DataFrame) :
  (forall r, In r df -> zero_or_nan (net_value r)) ->
  Forall (fun v => v = Fin 0) (map total_net_value (sku_summary_sorted df)).
Proof.
  intros Hdf. apply Forall_forall. intros v Hv.
  apply in_map_iff in Hv. destruct Hv as [s [<- Hs]].
  apply sku_summary_sorted_In in Hs. destruct Hs as (g & Hg & _ & -> & _).
  apply sum_skipna_zero. apply Forall_forall. intros x Hx.
  apply in_map_iff in Hx. destruct Hx as [r [<- Hr]]. apply Hdf.
  apply (groupby_member _ _ _ df g r Hg) in Hr. tauto.
Qed.

(** X8. When every net value of the table is zero or missing (an empty
    table included) the grand total is zero, every cumulative share is
    the undefined 0/0, no product passes the cut, and the risk table is
    empty. *)
Theorem critical_suppliers_no_spend (df : DataFrame) :
  (forall r, In r df -> zero_or_nan (net_value r)) ->
  (forall s, In s (sku_summary df) -> cum_spend_pct s = NaN)
  /\ calculate_critical_suppliers df = [].
Proof.
  intros Hdf.
  assert (forall s, In s (sku_summary df) -> cum_spend_pct s = NaN) as Hnan.
  { intros s Hs.
    assert (In (cum_spend_pct s) (map cum_spend_pct (sku_summary df))) as Hc
        by (apply in_map, Hs).
    rewrite sku_summary_pcts in Hc.
    rewrite (Forall_eq_repeat _ _ (no_spend_totals df Hdf)) in Hc.
    rewrite cum_spend_pcts_zero in Hc. apply repeat_spec in Hc. exact Hc. }
  split; [exact Hnan|].
  apply critical_suppliers_empty_of_no_top.
  intros s Hs. rewrite (Hnan s Hs). reflexivity.
Qed.

Lemma critical_suppliers_no_spend_witness :
  (forall r, In r no_spend_table -> zero_or_nan (net_value r))
  /\ calculate_critical_suppliers no_spend_table = [].
Proof.
  assert (forall r, In r no_spend_table -> zero_or_nan (net_value r)) as Hdf
      by (intros r [<-|[<-|[]]]; simpl; [reflexivity | exact I]).
  split; [exact Hdf|].
  exact (proj2 (critical_suppliers_no_spend no_spend_table Hdf)).
Defined.

(** ** Volatility Analyzer: nothing missing is reported *)

Lemma fillna0_not_nan (x : float64) : isnan (fillna0 x) = false.
Proof. destruct x; reflexivity. Qed.

Lemma json_of_float_number (x : float64) :
  isnan x = false -> json_of_float x = JNum x.
Proof. unfold json_of_float. intros ->. reflexivity. Qed.

(** X9. The volatility table has one row per (product, description)
    group and none of its mean, std and CV% values is missing; so the
    price-volatility endpoint never delivers a null: every cell of its
    records is a string or a number. *)
Theorem price_volatility_no_missing (df : DataFrame) :
  List.length (calculate_price_volatility df)
  = List.length (groupby_cols [product_id; description] df)
  /\ (forall v,
         In v (calculate_price_volatility df) ->
         isnan (pv_mean v) = false /\ isnan (pv_std v) = false
         /\ isnan (CV_pct v) = false)
  /\ (forall record name cell,
         In record (get_price_volatility df) ->
         In (name, cell) record -> cell <> JNull).
Proof.
  assert (forall v,
             In v (calculate_price_volatility df) ->
             isnan (pv_mean v) = false /\ isnan (pv_std v) = false
             /\ isnan (CV_pct v) = false) as Hrows.
  { intros v Hv. apply calculate_price_volatility_In in Hv.
    destruct Hv as [g [_ ->]]. simpl. repeat split; apply fillna0_not_nan. }
  split; [|split; [exact Hrows|]].
  - unfold calculate_price_volatility, sort_values_desc.
    rewrite length_map.
    rewrite (Permutation_length (sort_by_perm _ _)).
    apply length_map.
  - intros record name cell Hrec Hcell.
    unfold get_price_volatility, to_json_safe_dict in Hrec.
    apply in_map_iff in Hrec. destruct Hrec as [v [<- Hv]].
    destruct (Hrows v Hv) as (Hm & Hs & Hc).
    unfold volatility_columns in Hcell.
    rewrite (json_of_float_number _ Hm), (json_of_float_number _ Hs),
      (json_of_float_number _ Hc) in Hcell.
    simpl in Hcell.
    destruct Hcell as [E|[E|[E|[E|[E|[]]]]]]; inversion E; discriminate.
Qed.

Lemma price_volatility_no_missing_witness :
  exists v,
    In v (calculate_price_volatility line_pair_without_prices)
    /\ pv_mean v = Fin 0 /\ isnan (CV_pct v) = false.
Proof.
  exists (mkVol "P1" "Widget" (Fin 0) (Fin 0) (Fin 0)).
  assert (In (mkVol "P1" "Widget" (Fin 0) (Fin 0) (Fin 0))
             (calculate_price_volatility line_pair_without_prices)) as Hin
      by (left; reflexivity).
  split; [exact Hin|]. split; [reflexivity|].
  exact (proj2 (proj2 (proj1 (proj2 (price_volatility_no_missing
                                       line_pair_without_prices)) _ Hin))).
Defined.

(** ** Selecting the largest entries *)

Lemma desc_ordered_values (a b : float64) :
  desc_ordered a b -> isnan a = false -> isnan b = false -> fle b a = true.
Proof.
  unfold desc_ordered, desc_leb. intros H Ha Hb.
  rewrite Ha, Hb in H. exact H.
Qed.

Lemma nlargest_In {A : Type} (n : nat) (l : list (A * float64))
    (a : A * float64) :
  In a (nlargest n l) -> In a l /\ isnan (snd a) = false.
Proof.
  unfold nlargest, sort_values_desc. intros H.
  apply firstn_incl in H. apply sort_by_In in H. apply filter_In in H.
  unfold notna in H. rewrite negb_true_iff in H. exact H.
Qed.


(** Every entry left out is at most every entry selected. *)
Lemma nlargest_dominates {A : Type} (n : nat) (l : list (A * float64))
    (a b : A * float64) :
  In a (nlargest n l) -> In b l -> isnan (snd b) = false ->
  ~ In b (nlargest n l) ->
  fle (snd b) (snd a) = true.
Proof.
  intros Ha Hb Hnb Hout.
  destruct (nlargest_In n l a Ha) as [_ Hna].
  apply desc_ordered_values; [|exact Hna|exact Hnb].
  unfold nlargest in *.
  apply (firstn_precedes (fun x y => desc_ordered (snd x) (snd y)) n
           (sort_values_desc snd (filter (fun kv => notna (snd kv)) l)));
    [apply sort_values_desc_sorted | exact Ha |].
  assert (In b (sort_values_desc snd (filter (fun kv => notna (snd kv)) l)))
    as Hs.
  { unfold sort_values_desc. apply sort_by_In. apply filter_In.
    split; [exact Hb|]. unfold notna. rewrite Hnb. reflexivity. }
  rewrite <- (firstn_skipn n) in Hs. apply in_app_or in Hs.
  destruct Hs as [Hs|Hs]; [contradiction | exact Hs].
Qed.


(** ** Demand Forecaster: shape of the output *)






(** X11. The products the forecaster selects are those of largest total
    quantity: a product left out has a total quantity at most that of
    every product selected. *)
Theorem top_5_skus_largest (df : DataFrame) (p p' : string) (q q' : float64) :
  let totals :=
    map (fun g => (fst g, sum_skipna (map quantity (snd g))))
        (groupby_col product_id df) in
  In (p, q) totals -> In p (top_5_skus_by_qty df) ->
  In (p', q') totals -> ~ In p' (top_5_skus_by_qty df) ->
  isnan q' = false ->
  fle q' q = true.
Proof.
  intros totals Hp Hsel Hp' Hout Hn.
  assert (NoDup (map fst totals)) as Hnd.
  { unfold totals. rewrite map_map. simpl.
    change (map (fun x : string * list row => fst x)
                (groupby_col product_id df))
      with (map fst (groupby string_dec String.leb product_id df)).
    rewrite groupby_keys. apply group_keys_NoDup. }
  assert (In (p, q) (nlargest 5 totals)) as Ha.
  { unfold top_5_skus_by_qty in Hsel. fold totals in Hsel.
    apply in_map_iff in Hsel. destruct Hsel as [[p0 q0] [E H0]].
    simpl in E. subst p0.
    destruct (nlargest_In 5 totals _ H0) as [H0' _].
    assert (q0 = q) as <-; [|exact H0].
    clear - Hnd H0' Hp. induction totals as [|[k v] l IH]; [destruct Hp|].
    simpl in Hnd. inversion Hnd as [|? ? Hfresh Hrest]; subst.
    destruct Hp as [Hp|Hp], H0' as [H0'|H0'].
    - congruence.
    - inversion Hp; subst. exfalso. apply Hfresh.
      apply in_map_iff. exists (p, q0). auto.
    - inversion H0'; subst. exfalso. apply Hfresh.
      apply in_map_iff. exists (p, q). auto.
    - apply IH; assumption. }
  apply (nlargest_dominates 5 totals (p, q) (p', q') Ha Hp' Hn).
  intros Hin. apply Hout. unfold top_5_skus_by_qty. fold totals.
  apply in_map_iff. exists (p', q'). auto.
Qed.

Lemma top_5_skus_largest_witness :
  exists df p p' q q',
    In p (top_5_skus_by_qty df) /\ ~ In p' (top_5_skus_by_qty df)
    /\ fle q' q = true.
Proof.
  pose (df := map (fun pq => line_item "PO" (fst pq) "d" "S" "D" 2024 1
                               (Fin (snd pq)) (Fin 1) (Fin 1))
                  [("A", 6%Q); ("B", 5%Q); ("C", 4%Q); ("D", 3%Q);
                   ("E", 2%Q); ("F", 1%Q)]).
  exists df, "A", "F", (Fin 6), (Fin 1).
  assert (In "A" (top_5_skus_by_qty df)) as HA by (left; reflexivity).
  assert (~ In "F" (top_5_skus_by_qty df)) as HF.
  { vm_compute. intros H.
    repeat (destruct H as [H|H]; [discriminate H|]). exact H. }
  split; [exact HA|]. split; [exact HF|].
  apply (top_5_skus_largest df "A" "F" (Fin 6) (Fin 1)).
  - left. reflexivity.
  - exact HA.
  - do 5 right. left. reflexivity.
  - exact HF.
  - reflexivity.
Defined.

(** ** Spend by department: the groups partition the spend *)




Section SumByKey.
Context {K : Type}.
Variable dec : forall a b : K, {a = b} + {a <> b}.
Variable keyf : row -> option K.
Variable v : row -> float64.





End SumByKey.






(** ** Top SKUs *)




(** ** Recommendations *)

Lemma sequence_none_iff {A : Type} (l : list (option A)) :
  sequence l = None <-> In None l.
Proof.
  induction l as [|[a|] l IH]; simpl.
  - split; [discriminate | intros []].
  - destruct (sequence l) as [t|].
    + split; [discriminate|]. intros [H|H]; [discriminate|].
      apply IH in H. discriminate.
    + split; [|reflexivity]. intros _. right. apply IH. reflexivity.
  - split; [|reflexivity]. intros _. left. reflexivity.
Qed.


Lemma idxmin_none_iff (rs : list row) :
  idxmin rs = None <-> forall r, In r rs -> isnan (unit_price r) = true.
Proof.
  unfold idxmin. split.
  - intros H r Hr.
    destruct (filter (fun r => notna (unit_price r)) rs) as [|x t] eqn:E;
      [|discriminate].
    destruct (isnan (unit_price r)) eqn:En; [reflexivity|].
    assert (In r (filter (fun r => notna (unit_price r)) rs)) as Hin.
    { apply filter_In. split; [exact Hr|]. unfold notna. rewrite En.
      reflexivity. }
    rewrite E in Hin. destruct Hin.
  - intros H. rewrite filter_none; [reflexivity|].
    intros r Hr. unfold notna. rewrite (H r Hr). reflexivity.
Qed.





Lemma best_suppliers_none_iff (df : DataFrame) :
  best_suppliers df = None
  <-> exists p,
        (exists r, In r df /\ product_id r = Some p)
        /\ forall r, In r df -> product_id r = Some p ->
                     isnan (unit_price r) = true.
Proof.
  unfold best_suppliers. rewrite sequence_none_iff, in_map_iff. split.
  - intros [g [E Hg]].
    destruct (idxmin (snd g)) eqn:Ei; [discriminate|].
    unfold groupby_col in Hg.
    pose proof (fun r => groupby_member _ _ _ df g r Hg) as M.
    apply groupby_In in Hg. destruct Hg as [Hk _].
    apply group_keys_In in Hk. exists (fst g). split; [exact Hk|].
    intros r Hr Hp.
    apply (proj1 (idxmin_none_iff (snd g)) Ei). apply M. auto.
  - intros (p & (r & Hr & Hp) & Hall).
    exists (p, filter (has_key string_dec product_id p) df). split.
    + simpl.
      rewrite (proj2 (idxmin_none_iff _)); [reflexivity|].
      intros x Hx. apply filter_In in Hx. destruct Hx as [Hx Hk].
      apply has_key_true in Hk. apply Hall; assumption.
    + apply (groupby_row_has_group _ _ _ df r p Hr Hp).
Qed.

(** X14. The recommendations request fails exactly when some product of
    the table has no unit price at all (every one of its prices is
    missing): the label lookup of the cheapest row then has no row to
    find. *)
Theorem recommendations_fail_iff (df : DataFrame) :
  get_recommendations df = None
  <-> exists p,
        (exists r, In r df /\ product_id r = Some p)
        /\ forall r, In r df -> product_id r = Some p ->
                     isnan (unit_price r) = true.
Proof.
  rewrite <- best_suppliers_none_iff.
  unfold get_recommendations, recommendations.
  destruct (best_suppliers df); simpl; split; intros H;
    try discriminate; reflexivity.
Qed.

Lemma recommendations_fail_iff_witness :
  get_recommendations unpriced_product_table = None.
Proof.
  apply recommendations_fail_iff. exists "P2". split.
  - eexists. split; [right; left; reflexivity | reflexivity].
  - intros r [<-|[<-|[<-|[]]]] H; try discriminate H. reflexivity.
Defined.





(** ** The order of strings and of (product, month) keys *)

Lemma ascii_compare_lt_trans (a b c : ascii) :
  Ascii.compare a b = Lt -> Ascii.compare b c = Lt -> Ascii.compare a c = Lt.
Proof.
  unfold Ascii.compare. rewrite !N.compare_lt_iff. apply N.lt_trans.
Qed.

Lemma string_compare_refl (s : string) : String.compare s s = Eq.
Proof.
  induction s as [|a s IH]; [reflexivity|].
  simpl. unfold Ascii.compare. rewrite N.compare_refl. exact IH.
Qed.

Lemma string_compare_lt_trans (a b c : string) :
  String.compare a b = Lt -> String.compare b c = Lt ->
  String.compare a c = Lt.
Proof.
  revert b c. induction a as [|x a IH]; intros [|y b] [|z c]; simpl;
    try discriminate; try reflexivity.
  destruct (Ascii.compare x y) eqn:Exy; try discriminate;
    destruct (Ascii.compare y z) eqn:Eyz; try discriminate; intros H1 H2.
  - apply Ascii.compare_eq_iff in Exy, Eyz. subst.
    unfold Ascii.compare. rewrite N.compare_refl. eapply IH; eassumption.
  - apply Ascii.compare_eq_iff in Exy. subst. rewrite Eyz. reflexivity.
  - apply Ascii.compare_eq_iff in Eyz. subst. rewrite Exy. reflexivity.
  - rewrite (ascii_compare_lt_trans x y z Exy Eyz). reflexivity.
Qed.

Lemma month_key_leb_total (a b : month_key) :
  month_key_leb a b = false -> month_key_leb b a = true.
Proof.
  unfold month_key_leb. rewrite (String.compare_antisym (fst b) (fst a)).
  destruct (String.compare (fst a) (fst b)); simpl; try discriminate.
  - intros H. apply Z.leb_gt in H. apply Z.leb_le. lia.
  - reflexivity.
Qed.

Lemma month_key_leb_trans (a b c : month_key) :
  month_key_leb a b = true -> month_key_leb b c = true ->
  month_key_leb a c = true.
Proof.
  unfold month_key_leb.
  destruct (String.compare (fst a) (fst b)) eqn:Eab; try discriminate;
    destruct (String.compare (fst b) (fst c)) eqn:Ebc; try discriminate;
    intros H1 H2.
  - apply String.compare_eq_iff in Eab, Ebc. rewrite Eab, Ebc.
    rewrite string_compare_refl. apply Z.leb_le.
    apply Z.leb_le in H1, H2. lia.
  - apply String.compare_eq_iff in Eab. rewrite Eab, Ebc. reflexivity.
  - apply String.compare_eq_iff in Ebc. rewrite <- Ebc, Eab. reflexivity.
  - rewrite (string_compare_lt_trans _ _ _ Eab Ebc). reflexivity.
Qed.

Lemma StronglySorted_filter {A : Type} (R : A -> A -> Prop) (p : A -> bool)
    (l : list A) :
  StronglySorted R l -> StronglySorted R (filter p l).
Proof.
  induction 1 as [|a l Hl IH Ha]; simpl; [constructor|].
  destruct (p a); [|exact IH]. constructor; [exact IH|].
  apply Forall_forall. intros x Hx. apply filter_In in Hx.
  rewrite Forall_forall in Ha. apply Ha. tauto.
Qed.

Lemma StronglySorted_distinct {A : Type} (R : A -> A -> Prop) (l : list A) :
  StronglySorted R l -> NoDup l ->
  StronglySorted (fun a b => R a b /\ a <> b) l.
Proof.
  induction 1 as [|a l Hl IH Ha]; intros Hnd; constructor.
  - apply IH. inversion Hnd. assumption.
  - inversion Hnd as [|? ? Hfresh _]; subst.
    apply Forall_forall. intros x Hx. rewrite Forall_forall in Ha.
    split; [apply Ha, Hx|]. intros ->. contradiction.
Qed.

Lemma StronglySorted_map_on {A B : Type} (P : A -> Prop) (R : A -> A -> Prop)
    (R' : B -> B -> Prop) (f : A -> B) (l : list A) :
  (forall a b, P a -> P b -> R a b -> R' (f a) (f b)) ->
  Forall P l -> StronglySorted R l -> StronglySorted R' (map f l).
Proof.
  intros HR HP Hs. induction Hs as [|a l Hl IH Ha]; simpl; constructor.
  - apply IH. inversion HP. assumption.
  - inversion HP as [|? ? Pa Pl]; subst.
    apply Forall_forall. intros y Hy. apply in_map_iff in Hy.
    destruct Hy as [x [<- Hx]]. rewrite Forall_forall in Ha, Pl.
    apply HR; auto.
Qed.

(** ** Demand Forecaster: the history of a product *)

Lemma monthly_demand_ts_keys (df : DataFrame) :
  map fst (monthly_demand_ts df)
  = group_keys month_key_eq_dec month_key_leb month_key_of
      (filter (in_top (top_5_skus_by_qty df)) df).
Proof.
  unfold monthly_demand_ts. rewrite map_map. simpl.
  change (map (fun x : month_key * list row => fst x))
    with (map (@fst month_key (list row))).
  apply groupby_keys.
Qed.

Lemma sku_history_months (df : DataFrame) (sku : string) :
  map fst (sku_history df sku)
  = map snd (filter (fun k : month_key => String.eqb (fst k) sku)
                    (map fst (monthly_demand_ts df))).
Proof.
  unfold sku_history.
  induction (monthly_demand_ts df) as [|[[p m] q] l IH]; [reflexivity|].
  simpl. destruct (String.eqb p sku); simpl; rewrite IH; reflexivity.
Qed.

(** X16. The history of a product that the forecaster builds has its
    months in strictly increasing order, one point per month; and the
    months present are exactly those in which a dated line item of the
    product exists, provided the product is among the selected ones. *)
Theorem sku_history_chronological (df : DataFrame) (sku : string) :
  StronglySorted Z.lt (map fst (sku_history df sku))
  /\ (forall m,
         In m (map fst (sku_history df sku))
         <-> In sku (top_5_skus_by_qty df)
             /\ exists r d,
                  In r df /\ product_id r = Some sku
                  /\ created_date r = Some d /\ month_ordinal d = m).
Proof.
  rewrite sku_history_months, monthly_demand_ts_keys. split.
  - apply (StronglySorted_map_on
             (fun k : month_key => fst k = sku)
             (fun a b => month_key_leb a b = true /\ a <> b)).
    + intros [p m] [p' m'] Hp Hp' [Hle Hne]. simpl in *. subst p p'.
      unfold month_key_leb in Hle. simpl in Hle.
      rewrite string_compare_refl in Hle. apply Z.leb_le in Hle.
      assert (m <> m') by congruence. lia.
    + apply Forall_forall. intros k Hk. apply filter_In in Hk.
      destruct Hk as [_ Hk]. apply String.eqb_eq. exact Hk.
    + apply StronglySorted_filter. apply StronglySorted_distinct.
      * unfold group_keys. apply sort_by_strongly.
        -- apply month_key_leb_total.
        -- apply month_key_leb_trans.
      * apply group_keys_NoDup.
  - intros m. rewrite in_map_iff. split.
    + intros [[p m'] [E Hk]]. simpl in E. subst m'.
      apply filter_In in Hk. destruct Hk as [Hk Hp]. simpl in Hp.
      apply String.eqb_eq in Hp. subst p.
      apply group_keys_In in Hk. destruct Hk as (r & Hr & Hkey).
      apply filter_In in Hr. destruct Hr as [Hr Htop].
      unfold month_key_of in Hkey. unfold in_top in Htop.
      destruct (product_id r) as [p|] eqn:Ep; [|discriminate].
      destruct (created_date r) as [d|] eqn:Ed; [|discriminate].
      inversion Hkey; subst. split; [apply isin_In, Htop|].
      exists r, d. auto.
    + intros (Htop & r & d & Hr & Hp & Hd & Hm).
      exists (sku, m). split; [reflexivity|]. apply filter_In.
      split; [|apply String.eqb_refl].
      apply group_keys_In. exists r. split.
      * apply filter_In. split; [exact Hr|]. unfold in_top. rewrite Hp.
        apply isin_true, Htop.
      * unfold month_key_of. rewrite Hp, Hd, Hm. reflexivity.
Qed.

Lemma sku_history_chronological_witness :
  In 24291%Z (map fst (sku_history gapped_history_table "P1")).
Proof.
  apply (proj2 (sku_history_chronological gapped_history_table "P1")).
  split; [left; reflexivity|].
  exists (line_item "PO3" "P1" "Widget" "S1" "D1" 2024 4
                    (Fin 11) (Fin 5) (Fin 55)), (mkDate 2024 4 1).
  repeat split. right. right. left. reflexivity.
Defined.

(** ** Volatility Analyzer: order of the rows *)

Lemma volatility_group_nonneg (df : DataFrame) (g : key * list row) :
  (forall r, In r df -> nonneg_or_nan (unit_price r)) ->
  In g (groupby_cols [product_id; description] df) ->
  fle (Fin 0) (fillna0 (CV_pct (volatility_of_group g))) = true.
Proof.
  intros Hdf Hg.
  assert (Forall nonneg_or_nan (map unit_price (snd g))) as Hprices.
  { apply Forall_forall. intros x Hx. apply in_map_iff in Hx.
    destruct Hx as [r [<- Hr]]. apply Hdf.
    apply (groupby_member _ _ _ df g r Hg) in Hr. tauto. }
  assert (Forall finite_or_nan (map unit_price (snd g))) as Hfin.
  { eapply Forall_impl; [|exact Hprices]. intros [| | |]; simpl; auto. }
  simpl. apply cv_nonneg;
    [apply std_skipna_nonneg, Hfin | apply mean_skipna_nonneg, Hprices].
Qed.

Lemma fillna0_keeps_order (a b : float64) :
  fle (Fin 0) (fillna0 a) = true ->
  desc_ordered a b ->
  fle (fillna0 b) (fillna0 a) = true.
Proof.
  unfold desc_ordered, desc_leb. intros Ha H.
  destruct (isnan b) eqn:Eb.
  - destruct b; try discriminate. exact Ha.
  - destruct (isnan a) eqn:Ea; [discriminate|].
    unfold fillna0. rewrite Ea, Eb. exact H.
Qed.

(** X17. In a table without negative or infinite unit prices the
    volatility rows come in descending order of the reported CV%, the
    rows whose CV% was undefined (reported as 0) last. *)
Theorem price_volatility_sorted (df : DataFrame) :
  (forall r, In r df -> nonneg_or_nan (unit_price r)) ->
  StronglySorted (fun a b => fle (CV_pct b) (CV_pct a) = true)
                 (calculate_price_volatility df).
Proof.
  intros Hdf. unfold calculate_price_volatility.
  apply (StronglySorted_map_on
           (fun w => fle (Fin 0) (fillna0 (CV_pct w)) = true)
           (fun a b => desc_ordered (CV_pct a) (CV_pct b))).
  - intros a b Ha _ Hab. simpl. apply fillna0_keeps_order; assumption.
  - apply Forall_forall. intros w Hw. unfold sort_values_desc in Hw.
    apply sort_by_In in Hw. apply in_map_iff in Hw.
    destruct Hw as [g [<- Hg]]. apply (volatility_group_nonneg df); assumption.
  - apply sort_values_desc_sorted.
Qed.

Lemma price_volatility_sorted_witness :
  StronglySorted (fun a b => fle (CV_pct b) (CV_pct a) = true)
                 (calculate_price_volatility two_price_table).
Proof.
  apply price_volatility_sorted.
  intros r [<-|[<-|[<-|[]]]]; simpl; unfold Qle; simpl; lia.
Defined.

(** ** Filter options and the SKU analysis endpoint *)

Lemma sku_row_source (df : DataFrame) (s : sku_row) :
  In s (calculate_sku_analysis df) ->
  exists r,
    In r df /\ department r = Some (sk_department s)
    /\ product_id r = Some (sk_product_id s)
    /\ description r = Some (sk_description s)
    /\ supplier_id r = Some (sk_supplier_id s).
Proof.
  intros Hs.
  assert (In (sku_key s) (map sku_key (calculate_sku_analysis df))) as Hk
      by (apply in_map, Hs).
  rewrite sku_analysis_keys in Hk. apply group_keys_In in Hk.
  destruct Hk as (r & Hr & Hkey). exists r. split; [exact Hr|].
  unfold sku_cols, sku_key in Hkey. simpl in Hkey.
  destruct (department r), (product_id r), (description r), (supplier_id r);
    try discriminate.
  inversion Hkey. auto.
Qed.

(** X18. The filter options cover the SKU analysis: the department and
    the supplier of every row of the SKU analysis are among the options
    the two filter endpoints return, and no option is returned twice. *)
Theorem filter_options_cover (df : DataFrame) :
  NoDup (get_department_filters df)
  /\ NoDup (get_supplier_filters df)
  /\ forall s,
       In s (calculate_sku_analysis df) ->
       In (Some (sk_department s)) (get_department_filters df)
       /\ In (Some (sk_supplier_id s)) (get_supplier_filters df).
Proof.
  assert (forall l : list (option string),
             NoDup (drop_duplicates ostring_eq_dec l)) as Hnd.
  { intros l. unfold drop_duplicates. apply NoDup_rev, NoDup_nodup. }
  split; [apply Hnd|]. split; [apply Hnd|].
  intros s Hs. destruct (sku_row_source df s Hs) as (r & Hr & Hd & _ & _ & Hsup).
  unfold get_department_filters, get_supplier_filters.
  rewrite !drop_duplicates_In, <- Hd, <- Hsup.
  split; apply in_map; exact Hr.
Qed.

Lemma filter_options_cover_witness :
  In (Some "D1") (get_department_filters two_supplier_table)
  /\ In (Some "S2") (get_supplier_filters two_supplier_table).
Proof.
  apply (proj2 (proj2 (filter_options_cover two_supplier_table))
           (mkSku "D1" "P1" "Widget" "S2" (Fin 1) (Fin 20) (Fin 10) (Fin 10))).
  right. left. reflexivity.
Defined.

Lemma threshold_is_zero (c : Z) :
  feqb (Fin (inject_Z c)) (Fin 0) = true <-> c = 0%Z.
Proof.
  simpl. rewrite Qeq_bool_iff. unfold Qeq, inject_Z. simpl. lia.
Qed.

(** X19. The SKU analysis endpoint delivers one record per row of the
    SKU analysis when called without filters and with threshold 0; with
    a non-empty department or supplier list or a non-zero threshold,
    every record it delivers carries a numeric cost above best price
    that is at least the threshold, never a null. *)
Theorem sku_analysis_endpoint (df : DataFrame)
    (departments suppliers : option (list string)) (cost_threshold : Z) :
  (truthy departments = false -> truthy suppliers = false ->
   cost_threshold = 0%Z ->
   List.length (get_sku_analysis_table df departments suppliers
                                       cost_threshold)
   = List.length (calculate_sku_analysis df))
  /\ (truthy departments = true \/ truthy suppliers = true
      \/ cost_threshold <> 0%Z ->
      forall record,
        In record (get_sku_analysis_table df departments suppliers
                                          cost_threshold) ->
        exists x,
          In ("cost_above_best_price", JNum x) record
          /\ isnan x = false
          /\ fle (Fin (inject_Z cost_threshold)) x = true).
Proof.
  unfold get_sku_analysis_table, to_json_safe_dict, filter_sku_analysis.
  split.
  - intros -> -> ->. simpl. apply length_map.
  - intros Hact.
    assert (negb (truthy departments) && negb (truthy suppliers)
            && feqb (Fin (inject_Z cost_threshold)) (Fin 0) = false) as E.
    { destruct Hact as [-> | [-> | Hc]]; cbn [negb andb];
        rewrite ?andb_false_r; try reflexivity.
      destruct (feqb (Fin (inject_Z cost_threshold)) (Fin 0)) eqn:Ez;
        [|apply andb_false_r].
      apply threshold_is_zero in Ez. contradiction. }
    rewrite E. intros record Hrec. apply in_map_iff in Hrec.
    destruct Hrec as [r [<- Hr]]. apply filter_In in Hr.
    destruct Hr as [_ Hge]. unfold fge in Hge.
    assert (isnan (cost_above_best_price r) = false) as Hn.
    { destruct (cost_above_best_price r); try reflexivity.
      simpl in Hge. discriminate. }
    exists (cost_above_best_price r). split; [|auto].
    unfold sku_columns. rewrite (json_of_float_number _ Hn).
    do 7 right. left. reflexivity.
Qed.

Lemma sku_analysis_endpoint_witness :
  List.length (get_sku_analysis_table [line_without_price] None None 0) = 1%nat
  /\ get_sku_analysis_table [line_without_price] (Some ["D1"]) None 0 = [].
Proof.
  split.
  - rewrite (proj1 (sku_analysis_endpoint [line_without_price] None None 0));
      reflexivity.
  - destruct (get_sku_analysis_table [line_without_price] (Some ["D1"]) None 0)
      as [|record l] eqn:E; [reflexivity|].
    destruct (proj2 (sku_analysis_endpoint [line_without_price]
                       (Some ["D1"]) None 0) (or_introl eq_refl) record)
      as (x & _ & _ & _).
    + rewrite E. left. reflexivity.
    + vm_compute in E. discriminate E.
Defined.
